(** * WiFiAPClient: the WiFi connectivity layer of the firmware

    A shallow embedding of [src/mesh/http/WiFiAPClient.cpp] and the
    properties of its reconnect scheduler, link-event handlers and
    one-shot service startup.

    Conventions of the embedding.
    - The file-scope variables of the translation unit are the fields of
      [World]; every function is a computation in the monad [M], which
      threads the world and records, in order, the calls made to the
      collaborators outside the file (the WiFi stack, mDNS, the NTP client,
      the web and API servers, the MQTT client, the RTC, the log).
    - What those collaborators answer is read from an [Env].
    - A log call is recorded with its format string, without the newline
      escapes and without its arguments.
    - The translation unit is taken as it compiles by default: the macro
      [DISABLE_NTP] is not defined, so both [#ifndef DISABLE_NTP] regions
      are part of the program. *)

From Stdlib Require Import String Ascii List ZArith Bool Lia.
Import ListNotations.

Local Open Scope string_scope.
Local Open Scope list_scope.
Local Open Scope Z_scope.

(** ** C strings

    [config.network.wifi_ssid] and [wifi_psk] are [char] arrays.  An array
    is modelled by the characters it holds; the C string it denotes stops at
    the first NUL.  A buffer with no character at all stands for an array
    holding only the terminator. *)

Module CStr.

(** [*p] for a [const char *p] into the buffer. *)
Definition deref (buf : string) : ascii :=
  match buf with
  | EmptyString => Ascii.zero
  | String c _ => c
  end.

(** A [char] used as a condition. *)
Definition nonzero (c : ascii) : bool := negb (Ascii.eqb c Ascii.zero).

(** The string a [const char *] to the buffer denotes. *)
Fixpoint to_string (buf : string) : string :=
  match buf with
  | EmptyString => EmptyString
  | String c rest =>
      if Ascii.eqb c Ascii.zero then EmptyString
      else String c (to_string rest)
  end.

End CStr.

(** ** Configuration ([config.network]) *)

Inductive Config_NetworkConfig_EthMode : Type :=
| Config_NetworkConfig_EthMode_DHCP
| Config_NetworkConfig_EthMode_STATIC.

Record IpV4Config : Type := {
  ip : Z;
  gateway : Z;
  subnet : Z;
  dns : Z
}.

Record NetworkConfig : Type := {
  wifi_enabled : bool;
  wifi_ssid : string;
  wifi_psk : string;
  ntp_server : string;
  eth_mode : Config_NetworkConfig_EthMode;
  ipv4_config : IpV4Config
}.

(** ** The interface to the collaborators *)

Inductive wifi_mode_t : Type :=
| WIFI_MODE_NULL
| WIFI_MODE_STA.

(** Modelled from the spec: the quality tags of the clock arbiter, whose
    declaration is in [RTC.h]; the spec names the network-time tag the file
    uses and the GPS one it sets it against. *)
Inductive RTCQuality : Type :=
| RTCQualityNTP
| RTCQualityGPS.

Record timeval : Type := {
  tv_sec : Z;
  tv_usec : Z
}.

(** The events of the SDK, named as the [switch] of [WiFiEvent] names them;
    [SYSTEM_EVENT_OTHER] stands for every value that reaches [default]. *)
Inductive WiFiEvent_t : Type :=
| SYSTEM_EVENT_WIFI_READY
| SYSTEM_EVENT_SCAN_DONE
| SYSTEM_EVENT_STA_START
| SYSTEM_EVENT_STA_STOP
| SYSTEM_EVENT_STA_CONNECTED
| SYSTEM_EVENT_STA_DISCONNECTED
| SYSTEM_EVENT_STA_AUTHMODE_CHANGE
| SYSTEM_EVENT_STA_GOT_IP
| SYSTEM_EVENT_STA_LOST_IP
| SYSTEM_EVENT_STA_WPS_ER_SUCCESS
| SYSTEM_EVENT_STA_WPS_ER_FAILED
| SYSTEM_EVENT_STA_WPS_ER_TIMEOUT
| SYSTEM_EVENT_STA_WPS_ER_PIN
| SYSTEM_EVENT_AP_START
| SYSTEM_EVENT_AP_STOP
| SYSTEM_EVENT_AP_STACONNECTED
| SYSTEM_EVENT_AP_STADISCONNECTED
| SYSTEM_EVENT_AP_STAIPASSIGNED
| SYSTEM_EVENT_AP_PROBEREQRECVED
| SYSTEM_EVENT_GOT_IP6
| SYSTEM_EVENT_ETH_START
| SYSTEM_EVENT_ETH_STOP
| SYSTEM_EVENT_ETH_CONNECTED
| SYSTEM_EVENT_ETH_DISCONNECTED
| SYSTEM_EVENT_ETH_GOT_IP
| SYSTEM_EVENT_OTHER (code : Z).

(** [WiFiEventInfo_t]: the one member the file reads,
    [info.wifi_sta_disconnected.reason]. *)
Record WiFiEventInfo_t : Type := {
  wifi_sta_disconnected_reason : Z
}.

(** A call that leaves the translation unit. *)
Inductive Action : Type :=
| DEBUG_MSG (fmt : string)
| Serial_print (text : string)
| Serial_println_reason (reason : Z)
| Serial_println_localIP
| WiFi_disconnect (wifioff eraseap : bool)
| WiFi_mode (m : wifi_mode_t)
| WiFi_begin (ssid : string) (passphrase : option string)
| WiFi_setHostname (hostname : string)
| WiFi_onEvent_WiFiEvent
| WiFi_onEvent_STA_DISCONNECTED
| WiFi_setAutoReconnect (on : bool)
| WiFi_setSleep (on : bool)
| WiFi_config (local_ip gw sn dns1 dns2 : Z)
| esp_wifi_set_ps_NONE
| createSSLCert
| MDNS_begin (hostname : string)
| MDNS_addService (service proto : string) (port : Z)
| timeClient_begin
| timeClient_setUpdateInterval (seconds : Z)
| timeClient_update
| perhapsSetRTC (q : RTCQuality) (tv : timeval)
| initWebServer
| initApiServer
| mqtt_reconnect
| new_Periodic (name : string).

(** What the collaborators answer during one handler or task run. *)
Record Env : Type := {
  mqtt : bool;                      (* the global [mqtt] pointer is not null *)
  MDNS_begin_result : bool;
  timeClient_update_result : bool;
  timeClient_getEpochTime : Z;
  getMacAddr : list Z
}.

(** Modelled from the spec: the link state of the WiFi stack, which lives
    outside the file (spec 3 and 4.1).  The file reads it only through
    [WiFi.isConnected()], which holds exactly in [Up]. *)
Inductive LinkState : Type := Down | Connecting | Up.

Definition LinkState_eqb (a b : LinkState) : bool :=
  match a, b with
  | Down, Down | Connecting, Connecting | Up, Up => true
  | _, _ => false
  end.

(** ** The world: the file-scope variables and the link *)

Record World : Type := {
  wifiDisconnectReason : Z;          (* uint8_t, initialised to 0 *)
  ourHost : string;                  (* char[16] *)
  APStartupComplete : bool;          (* initialised to 0 *)
  needReconnect : bool;              (* initialised to true *)
  wifiReconnect : option string;     (* Periodic *, the task's name *)
  link : LinkState
}.

Definition process_start : World := {|
  wifiDisconnectReason := 0;
  ourHost := "";
  APStartupComplete := false;
  needReconnect := true;
  wifiReconnect := None;
  link := Down
|}.

(** ** The monad: state and an output of actions *)

Definition M (A : Type) : Type := World -> A * World * list Action.

Definition ret {A} (a : A) : M A := fun w => (a, w, []).

Definition bind {A B} (m : M A) (k : A -> M B) : M B :=
  fun w =>
    let '(a, w1, out1) := m w in
    let '(b, w2, out2) := k a w1 in
    (b, w2, out1 ++ out2).

Declare Scope wifi_scope.
Delimit Scope wifi_scope with wifi.
Notation "x <- m ;; k" := (bind m (fun x => k))
  (at level 61, m at next level, right associativity) : wifi_scope.
Notation "m ;; k" := (bind m (fun _ => k))
  (at level 61, right associativity) : wifi_scope.
Local Open Scope wifi_scope.

Definition emit (a : Action) : M unit := fun w => (tt, w, [a]).
Definition read {A} (field : World -> A) : M A := fun w => (field w, w, []).
Definition modify (f : World -> World) : M unit := fun w => (tt, f w, []).
Definition when (b : bool) (m : M unit) : M unit := if b then m else ret tt.

Definition result {A} (m : M A) (w : World) : A := fst (fst (m w)).
Definition state_after {A} (m : M A) (w : World) : World := snd (fst (m w)).
Definition actions {A} (m : M A) (w : World) : list Action := snd (m w).

(** Assignments to the file-scope variables. *)
Definition set_wifiDisconnectReason (v : Z) (w : World) : World :=
  {| wifiDisconnectReason := v; ourHost := ourHost w;
     APStartupComplete := APStartupComplete w;
     needReconnect := needReconnect w; wifiReconnect := wifiReconnect w;
     link := link w |}.

Definition set_ourHost (v : string) (w : World) : World :=
  {| wifiDisconnectReason := wifiDisconnectReason w; ourHost := v;
     APStartupComplete := APStartupComplete w;
     needReconnect := needReconnect w; wifiReconnect := wifiReconnect w;
     link := link w |}.

Definition set_APStartupComplete (v : bool) (w : World) : World :=
  {| wifiDisconnectReason := wifiDisconnectReason w; ourHost := ourHost w;
     APStartupComplete := v;
     needReconnect := needReconnect w; wifiReconnect := wifiReconnect w;
     link := link w |}.

Definition set_needReconnect (v : bool) (w : World) : World :=
  {| wifiDisconnectReason := wifiDisconnectReason w; ourHost := ourHost w;
     APStartupComplete := APStartupComplete w;
     needReconnect := v; wifiReconnect := wifiReconnect w;
     link := link w |}.

Definition set_wifiReconnect (v : option string) (w : World) : World :=
  {| wifiDisconnectReason := wifiDisconnectReason w; ourHost := ourHost w;
     APStartupComplete := APStartupComplete w;
     needReconnect := needReconnect w; wifiReconnect := v;
     link := link w |}.

Definition set_link (v : LinkState) (w : World) : World :=
  {| wifiDisconnectReason := wifiDisconnectReason w; ourHost := ourHost w;
     APStartupComplete := APStartupComplete w;
     needReconnect := needReconnect w; wifiReconnect := wifiReconnect w;
     link := v |}.

(** ** The WiFi stack, as far as the file observes it *)

(** Modelled from the spec: an explicit connect command takes the link from
    [Down] to [Connecting] (spec 4.1); the table has no other transition on
    a command. *)
Definition link_on_connect (l : LinkState) : LinkState :=
  match l with
  | Down => Connecting
  | _ => l
  end.

(** Modelled from the spec: the transitions of the link on the events of
    the stack (spec 4.1): address acquired and access-point start enter
    [Up], disconnected and address lost enter [Down], no other event has a
    transition. *)
Definition link_on_event (event : WiFiEvent_t) (l : LinkState) : LinkState :=
  match event with
  | SYSTEM_EVENT_STA_GOT_IP | SYSTEM_EVENT_AP_START => Up
  | SYSTEM_EVENT_STA_DISCONNECTED | SYSTEM_EVENT_STA_LOST_IP => Down
  | _ => l
  end.

(** [WiFi.isConnected()]. *)
Definition WiFi_isConnected : M bool :=
  l <- read link ;; ret (LinkState_eqb l Up).

(** [WiFi.begin(ssid, passphrase)]: the command is recorded with the C
    strings the two pointers denote, and the stack starts connecting. *)
Definition call_WiFi_begin (ssid : string) (passphrase : option string) : M unit :=
  emit (WiFi_begin (CStr.to_string ssid) (option_map CStr.to_string passphrase)) ;;
  modify (fun w => set_link (link_on_connect (link w)) w).

(** [MDNS.begin(hostname)] and [timeClient.update()] return what the
    collaborator answers. *)
Definition call_MDNS_begin (env : Env) (hostname : string) : M bool :=
  emit (MDNS_begin hostname) ;; ret (MDNS_begin_result env).

Definition call_timeClient_update (env : Env) : M bool :=
  emit timeClient_update ;; ret (timeClient_update_result env).

(** ** The functions of the file *)

(** [uint8_t] keeps the low eight bits of what is stored into it. *)
Definition to_uint8 (v : Z) : Z := v mod 256.

(** [static int32_t reconnectWiFi()], the body of the periodic task. *)
Definition reconnectWiFi (config : NetworkConfig) (env : Env) : M Z :=
  let wifiName := wifi_ssid config in
  let wifiPsw := Some (wifi_psk config) in
  need <- read needReconnect ;;
  connected <- WiFi_isConnected ;;
  when (wifi_enabled config && need && negb connected)
    (let wifiPsw :=               (* Treat empty password as no password *)
       if negb (CStr.nonzero (CStr.deref (wifi_psk config))) then None
       else wifiPsw in
     when (CStr.nonzero (CStr.deref wifiName))
       (modify (set_needReconnect false) ;;
        (* Make sure we clear old connection credentials *)
        emit (WiFi_disconnect false true) ;;
        emit (DEBUG_MSG "... Reconnecting to WiFi access point") ;;
        emit (WiFi_mode WIFI_MODE_STA) ;;
        call_WiFi_begin wifiName wifiPsw)) ;;
  connected <- WiFi_isConnected ;;
  when connected
    (emit (DEBUG_MSG "Updating NTP time") ;;
     ok <- call_timeClient_update env ;;
     if ok then
       emit (DEBUG_MSG "NTP Request Success - Setting RTCQualityNTP if needed") ;;
       let tv := {| tv_sec := timeClient_getEpochTime env; tv_usec := 0 |} in
       emit (perhapsSetRTC RTCQualityNTP tv)
     else
       emit (DEBUG_MSG "NTP Update failed")) ;;
  ret (43200 * 1000).             (* every 12 hours *)

(** [bool isWifiAvailable()]. *)
Definition isWifiAvailable (config : NetworkConfig) : bool :=
  if wifi_enabled config && CStr.nonzero (CStr.deref (wifi_ssid config))
  then true
  else false.

(** [void deinitWifi()]. *)
Definition deinitWifi (config : NetworkConfig) : M unit :=
  emit (DEBUG_MSG "WiFi deinit") ;;
  when (isWifiAvailable config)
    (emit (WiFi_mode WIFI_MODE_NULL) ;;
     emit (DEBUG_MSG "WiFi Turned Off")).

(** [static void onNetworkConnected()]. *)
Definition onNetworkConnected (env : Env) : M unit :=
  complete <- read APStartupComplete ;;
  when (negb complete)
    (emit (DEBUG_MSG "... Starting network services") ;;
     (* start mdns *)
     ok <- call_MDNS_begin env "Meshtastic" ;;
     (if negb ok then
        emit (DEBUG_MSG "Error setting up MDNS responder!")
      else
        emit (DEBUG_MSG "mDNS responder started") ;;
        emit (DEBUG_MSG "mDNS Host: Meshtastic.local") ;;
        emit (MDNS_addService "http" "tcp" 80) ;;
        emit (MDNS_addService "https" "tcp" 443)) ;;
     emit (DEBUG_MSG "Starting NTP time client") ;;
     emit timeClient_begin ;;
     emit (timeClient_setUpdateInterval (60 * 60)) ;;  (* once an hour *)
     emit initWebServer ;;
     emit initApiServer ;;
     modify (set_APStartupComplete true)) ;;
  when (mqtt env) (emit mqtt_reconnect).

(** [static void WiFiEvent(WiFiEvent_t event)]: every named case logs,
    four of them do more, and [default] does nothing. *)
Definition WiFiEvent (event : WiFiEvent_t) (env : Env) : M unit :=
  emit (DEBUG_MSG "************ [WiFi-event] event: %d ************") ;;
  match event with
  | SYSTEM_EVENT_WIFI_READY => emit (DEBUG_MSG "WiFi interface ready")
  | SYSTEM_EVENT_SCAN_DONE => emit (DEBUG_MSG "Completed scan for access points")
  | SYSTEM_EVENT_STA_START => emit (DEBUG_MSG "WiFi station started")
  | SYSTEM_EVENT_STA_STOP => emit (DEBUG_MSG "WiFi station stopped")
  | SYSTEM_EVENT_STA_CONNECTED => emit (DEBUG_MSG "Connected to access point")
  | SYSTEM_EVENT_STA_DISCONNECTED =>
      emit (DEBUG_MSG "Disconnected from WiFi access point") ;;
      modify (set_needReconnect true)
  | SYSTEM_EVENT_STA_AUTHMODE_CHANGE =>
      emit (DEBUG_MSG "Authentication mode of access point has changed")
  | SYSTEM_EVENT_STA_GOT_IP =>
      emit (DEBUG_MSG "Obtained IP address: ") ;;
      emit Serial_println_localIP ;;
      onNetworkConnected env
  | SYSTEM_EVENT_STA_LOST_IP =>
      emit (DEBUG_MSG "Lost IP address and IP address is reset to 0") ;;
      modify (set_needReconnect true)
  | SYSTEM_EVENT_STA_WPS_ER_SUCCESS =>
      emit (DEBUG_MSG "WiFi Protected Setup (WPS): succeeded in enrollee mode")
  | SYSTEM_EVENT_STA_WPS_ER_FAILED =>
      emit (DEBUG_MSG "WiFi Protected Setup (WPS): failed in enrollee mode")
  | SYSTEM_EVENT_STA_WPS_ER_TIMEOUT =>
      emit (DEBUG_MSG "WiFi Protected Setup (WPS): timeout in enrollee mode")
  | SYSTEM_EVENT_STA_WPS_ER_PIN =>
      emit (DEBUG_MSG "WiFi Protected Setup (WPS): pin code in enrollee mode")
  | SYSTEM_EVENT_AP_START =>
      emit (DEBUG_MSG "WiFi access point started") ;;
      onNetworkConnected env
  | SYSTEM_EVENT_AP_STOP => emit (DEBUG_MSG "WiFi access point stopped")
  | SYSTEM_EVENT_AP_STACONNECTED => emit (DEBUG_MSG "Client connected")
  | SYSTEM_EVENT_AP_STADISCONNECTED => emit (DEBUG_MSG "Client disconnected")
  | SYSTEM_EVENT_AP_STAIPASSIGNED => emit (DEBUG_MSG "Assigned IP address to client")
  | SYSTEM_EVENT_AP_PROBEREQRECVED => emit (DEBUG_MSG "Received probe request")
  | SYSTEM_EVENT_GOT_IP6 => emit (DEBUG_MSG "IPv6 is preferred")
  | SYSTEM_EVENT_ETH_START => emit (DEBUG_MSG "Ethernet started")
  | SYSTEM_EVENT_ETH_STOP => emit (DEBUG_MSG "Ethernet stopped")
  | SYSTEM_EVENT_ETH_CONNECTED => emit (DEBUG_MSG "Ethernet connected")
  | SYSTEM_EVENT_ETH_DISCONNECTED => emit (DEBUG_MSG "Ethernet disconnected")
  | SYSTEM_EVENT_ETH_GOT_IP =>
      emit (DEBUG_MSG "Obtained IP address (SYSTEM_EVENT_ETH_GOT_IP)")
  | SYSTEM_EVENT_OTHER _ => ret tt
  end.

(** The lambda [initWifi] registers for the station-disconnected event:
    it prints the reason and saves the error code. *)
Definition onStaDisconnected (info : WiFiEventInfo_t) : M unit :=
  emit (Serial_print "WiFi lost connection. Reason: ") ;;
  emit (Serial_println_reason (wifi_sta_disconnected_reason info)) ;;
  modify (set_wifiDisconnectReason (to_uint8 (wifi_sta_disconnected_reason info))).

(** [sprintf]'s [%02x] of a [uint8_t]. *)
Definition hex_digit (n : Z) : ascii :=
  nth (Z.to_nat n) (list_ascii_of_string "0123456789abcdef") "0"%char.

Definition hex02 (b : Z) : string :=
  String (hex_digit (to_uint8 b / 16)) (String (hex_digit (to_uint8 b mod 16)) "").

(** The two locals of [initWifi()], [const char *wifiName] and
    [const char *wifiPsw], as they stand when the function reaches the
    test of the name: declared from the configuration, and the second one
    set to [NULL] when it points to an empty string (Treat empty password
    as no password). *)
Record initWifi_locals : Type := {
  initWifi_wifiName : string;
  initWifi_wifiPsw : option string
}.

Definition initWifi_frame (config : NetworkConfig) : initWifi_locals :=
  let wifiName := wifi_ssid config in
  let wifiPsw := Some (wifi_psk config) in
  let wifiPsw :=                  (* Treat empty password as no password *)
    if negb (CStr.nonzero (CStr.deref (wifi_psk config))) then None
    else wifiPsw in
  {| initWifi_wifiName := wifiName; initWifi_wifiPsw := wifiPsw |}.

(** [bool initWifi()].  After the locals are set the function reads
    [wifiName] and never [wifiPsw]: it passes no credentials to the stack,
    the connect is left to the task it creates. *)
Definition initWifi (config : NetworkConfig) (env : Env) : M bool :=
  if wifi_enabled config && CStr.nonzero (CStr.deref (wifi_ssid config)) then
    emit createSSLCert ;;
    (let locals := initWifi_frame config in
     when (CStr.nonzero (CStr.deref (initWifi_wifiName locals)))
       (let dmac := getMacAddr env in
        modify (set_ourHost
                  ("Meshtastic-" ++ hex02 (nth 4 dmac 0) ++ hex02 (nth 5 dmac 0))%string) ;;
        emit (WiFi_mode WIFI_MODE_STA) ;;
        host <- read ourHost ;;
        emit (WiFi_setHostname host) ;;
        emit WiFi_onEvent_WiFiEvent ;;
        emit (WiFi_setAutoReconnect true) ;;
        emit (WiFi_setSleep false) ;;
        when (match eth_mode config with
              | Config_NetworkConfig_EthMode_STATIC => negb (ip (ipv4_config config) =? 0)
              | _ => false
              end)
          (* Wifi wants two DNS servers... set both to the same value *)
          (emit (WiFi_config (ip (ipv4_config config))
                             (gateway (ipv4_config config))
                             (subnet (ipv4_config config))
                             (dns (ipv4_config config))
                             (dns (ipv4_config config)))) ;;
        (* Disable radio power saving *)
        emit esp_wifi_set_ps_NONE ;;
        emit WiFi_onEvent_STA_DISCONNECTED ;;
        emit (DEBUG_MSG "JOINING WIFI soon: ssid=%s") ;;
        emit (new_Periodic "WifiConnect") ;;
        modify (set_wifiReconnect (Some "WifiConnect")))) ;;
    ret true
  else
    emit (DEBUG_MSG "Not using WIFI") ;;
    ret false.

(** [uint8_t getWifiDisconnectReason()]. *)
Definition getWifiDisconnectReason : M Z := read wifiDisconnectReason.

(** ** The process: what reaches the handlers and the task

    [initWifi] registers [WiFiEvent] for every event and then the lambda
    for the station-disconnected event, and creates the periodic task that
    runs [reconnectWiFi]; the stack calls the handlers in the order they
    were registered. *)

Inductive Input : Type :=
| LinkEvent (event : WiFiEvent_t) (info : WiFiEventInfo_t)
| SchedulerTick.

(** The stack moves the link and calls the handlers.  The [switch] of
    [WiFiEvent] and the registration of the lambda spell the
    station-disconnected event differently
    ([SYSTEM_EVENT_STA_DISCONNECTED], [ARDUINO_EVENT_WIFI_STA_DISCONNECTED]):
    both name the one event of the SDK that carries
    [info.wifi_sta_disconnected]. *)
Definition deliver (event : WiFiEvent_t) (info : WiFiEventInfo_t) (env : Env) : M unit :=
  modify (fun w => set_link (link_on_event event (link w)) w) ;;
  WiFiEvent event env ;;
  match event with
  | SYSTEM_EVENT_STA_DISCONNECTED => onStaDisconnected info
  | _ => ret tt
  end.

Definition step (config : NetworkConfig) (i : Env * Input) : M unit :=
  match snd i with
  | LinkEvent event info => deliver event info (fst i)
  | SchedulerTick => _ <- reconnectWiFi config (fst i) ;; ret tt
  end.

Fixpoint run (config : NetworkConfig) (inputs : list (Env * Input)) : M unit :=
  match inputs with
  | [] => ret tt
  | i :: rest => step config i ;; run config rest
  end.

(** The world in which the first input arrives: the initialisers of the
    file-scope variables, then [initWifi].  When [initWifi] returns false
    nothing is registered, and a real run has no input at all. *)
Definition after_setup (config : NetworkConfig) (env0 : Env) : World :=
  state_after (initWifi config env0) process_start.

(** The states a process can be in: any number of link events and
    scheduler ticks after the setup. *)
Definition reachable (config : NetworkConfig) (w : World) : Prop :=
  exists env0 inputs, w = state_after (run config inputs) (after_setup config env0).

(** ** Observations on the actions *)

Definition is_connect (a : Action) : bool :=
  match a with WiFi_begin _ _ => true | _ => false end.

Definition is_log (a : Action) : bool :=
  match a with
  | DEBUG_MSG _ | Serial_print _ | Serial_println_reason _
  | Serial_println_localIP => true
  | _ => false
  end.

Definition is_MDNS_begin (a : Action) : bool :=
  match a with MDNS_begin _ => true | _ => false end.

Definition is_timeClient_begin (a : Action) : bool :=
  match a with timeClient_begin => true | _ => false end.

Definition is_initWebServer (a : Action) : bool :=
  match a with initWebServer => true | _ => false end.

Definition is_initApiServer (a : Action) : bool :=
  match a with initApiServer => true | _ => false end.

Definition is_mqtt_reconnect (a : Action) : bool :=
  match a with mqtt_reconnect => true | _ => false end.

Definition is_time_sync (a : Action) : bool :=
  match a with timeClient_update | perhapsSetRTC _ _ => true | _ => false end.

Definition count (p : Action -> bool) (out : list Action) : nat :=
  length (filter p out).

(** How often each of the four dependent services was started, in the
    order mDNS, NTP client, web server, API server. *)
Definition service_starts (out : list Action) : nat * nat * nat * nat :=
  (count is_MDNS_begin out, count is_timeClient_begin out,
   count is_initWebServer out, count is_initApiServer out).

(** The events that report the network usable, and those that report it
    lost. *)
Definition became_usable (event : WiFiEvent_t) : bool :=
  match event with
  | SYSTEM_EVENT_STA_GOT_IP | SYSTEM_EVENT_AP_START => true
  | _ => false
  end.

Definition input_became_usable (i : Env * Input) : bool :=
  match snd i with
  | LinkEvent event _ => became_usable event
  | SchedulerTick => false
  end.

Definition is_disconnected_event (i : Env * Input) : bool :=
  match snd i with
  | LinkEvent SYSTEM_EVENT_STA_DISCONNECTED _ => true
  | _ => false
  end.


(** The secret as the configuration store holds it: absent when the
    string is empty. *)
Definition stored_secret (config : NetworkConfig) : option string :=
  match CStr.to_string (wifi_psk config) with
  | EmptyString => None
  | secret => Some secret
  end.

(** ** Further observations *)

Definition is_disconnect_command (a : Action) : bool :=
  match a with WiFi_disconnect _ _ => true | _ => false end.

Definition is_WiFi_config (a : Action) : bool :=
  match a with WiFi_config _ _ _ _ _ => true | _ => false end.

Definition is_new_Periodic (a : Action) : bool :=
  match a with new_Periodic _ => true | _ => false end.

Definition is_radio_off (a : Action) : bool :=
  match a with WiFi_mode WIFI_MODE_NULL => true | _ => false end.

Definition is_MDNS_addService (a : Action) : bool :=
  match a with MDNS_addService _ _ _ => true | _ => false end.

Definition is_timeClient_update (a : Action) : bool :=
  match a with timeClient_update => true | _ => false end.

Definition is_perhapsSetRTC (a : Action) : bool :=
  match a with perhapsSetRTC _ _ => true | _ => false end.

Definition is_registration (a : Action) : bool :=
  match a with
  | WiFi_onEvent_WiFiEvent | WiFi_onEvent_STA_DISCONNECTED => true
  | _ => false
  end.

(** The name [initWifi] prints into [ourHost]. *)
Definition host_name (env : Env) : string :=
  ("Meshtastic-" ++ hex02 (nth 4 (getMacAddr env) 0)
                 ++ hex02 (nth 5 (getMacAddr env) 0))%string.

(** The events that report the link lost. *)
Definition link_lost (event : WiFiEvent_t) : bool :=
  match event with
  | SYSTEM_EVENT_STA_DISCONNECTED | SYSTEM_EVENT_STA_LOST_IP => true
  | _ => false
  end.

Definition input_link_lost (i : Env * Input) : bool :=
  match snd i with
  | LinkEvent event _ => link_lost event
  | SchedulerTick => false
  end.

Definition is_tick (i : Env * Input) : bool :=
  match snd i with
  | SchedulerTick => true
  | LinkEvent _ _ => false
  end.

Definition count_inputs (p : Env * Input -> bool) (inputs : list (Env * Input)) : nat :=
  length (filter p inputs).

(** A connect command that passes the configured name and secret. *)
Definition connect_with_credentials (config : NetworkConfig) (a : Action) : Prop :=
  match a with
  | WiFi_begin ssid passphrase =>
      ssid = CStr.to_string (wifi_ssid config)
      /\ passphrase = stored_secret config
  | _ => True
  end.

(** A disconnect command that keeps the radio on and erases the stored
    access point. *)
Definition disconnect_erases_credentials (a : Action) : Prop :=
  match a with
  | WiFi_disconnect wifioff eraseap => wifioff = false /\ eraseap = true
  | _ => True
  end.

(** A time submitted to the clock arbiter as NTP time, in whole seconds. *)
Definition submission_is_ntp_seconds (a : Action) : Prop :=
  match a with
  | perhapsSetRTC q tv => q = RTCQualityNTP /\ tv_usec tv = 0
  | _ => True
  end.

(** A digit [%x] can print. *)
Definition is_hex_char (c : ascii) : bool :=
  existsb (Ascii.eqb c) (list_ascii_of_string "0123456789abcdef").

(** The static address is applied. *)
Definition uses_static_address (config : NetworkConfig) : bool :=
  match eth_mode config with
  | Config_NetworkConfig_EthMode_STATIC => negb (ip (ipv4_config config) =? 0)
  | Config_NetworkConfig_EthMode_DHCP => false
  end.

(** ** A device used in the scenarios *)

Module Scenario.

Definition open_network : NetworkConfig := {|
  wifi_enabled := true;
  wifi_ssid := "MyNet";
  wifi_psk := "";
  ntp_server := "0.pool.ntp.org";
  eth_mode := Config_NetworkConfig_EthMode_DHCP;
  ipv4_config := {| ip := 0; gateway := 0; subnet := 0; dns := 0 |}
|}.

Definition protected_network : NetworkConfig := {|
  wifi_enabled := true;
  wifi_ssid := "MyNet";
  wifi_psk := "hunter22";
  ntp_server := "0.pool.ntp.org";
  eth_mode := Config_NetworkConfig_EthMode_DHCP;
  ipv4_config := {| ip := 0; gateway := 0; subnet := 0; dns := 0 |}
|}.

Definition wifi_off : NetworkConfig := {|
  wifi_enabled := false;
  wifi_ssid := "MyNet";
  wifi_psk := "hunter22";
  ntp_server := "0.pool.ntp.org";
  eth_mode := Config_NetworkConfig_EthMode_DHCP;
  ipv4_config := {| ip := 0; gateway := 0; subnet := 0; dns := 0 |}
|}.

Definition env : Env := {|
  mqtt := true;
  MDNS_begin_result := true;
  timeClient_update_result := true;
  timeClient_getEpochTime := 1700000000;
  getMacAddr := [36; 111; 40; 170; 187; 204]
|}.

Definition env_without_mqtt : Env := {|
  mqtt := false;
  MDNS_begin_result := true;
  timeClient_update_result := true;
  timeClient_getEpochTime := 1700000000;
  getMacAddr := [36; 111; 40; 170; 187; 204]
|}.

Definition env_ntp_down : Env := {|
  mqtt := true;
  MDNS_begin_result := true;
  timeClient_update_result := false;
  timeClient_getEpochTime := 0;
  getMacAddr := [36; 111; 40; 170; 187; 204]
|}.

Definition reason (r : Z) : WiFiEventInfo_t :=
  {| wifi_sta_disconnected_reason := r |}.

Definition tick : Env * Input := (env, SchedulerTick).
Definition got_ip : Env * Input :=
  (env, LinkEvent SYSTEM_EVENT_STA_GOT_IP (reason 0)).
Definition ap_start : Env * Input :=
  (env, LinkEvent SYSTEM_EVENT_AP_START (reason 0)).
Definition disconnected (r : Z) : Env * Input :=
  (env, LinkEvent SYSTEM_EVENT_STA_DISCONNECTED (reason r)).
Definition lost_ip (r : Z) : Env * Input :=
  (env, LinkEvent SYSTEM_EVENT_STA_LOST_IP (reason r)).

(** The link is up, drops with reason 8, and the stack, which [initWifi]
    told to reconnect by itself, brings it up again before the next
    tick. *)
Definition reconnected_by_stack : list (Env * Input) :=
  [tick; got_ip; disconnected 8; got_ip].

Definition world_reconnected_by_stack : World :=
  state_after (run open_network reconnected_by_stack)
    (after_setup open_network env).

(** The link is up and the services are running. *)
Definition world_up : World :=
  state_after (run open_network [tick; got_ip]) (after_setup open_network env).

Definition static_network : NetworkConfig := {|
  wifi_enabled := true;
  wifi_ssid := "MyNet";
  wifi_psk := "hunter22";
  ntp_server := "0.pool.ntp.org";
  eth_mode := Config_NetworkConfig_EthMode_STATIC;
  ipv4_config := {| ip := 3232235786; gateway := 3232235777;
                    subnet := 4294967040; dns := 134744072 |}
|}.

Definition env_mdns_down : Env := {|
  mqtt := true;
  MDNS_begin_result := false;
  timeClient_update_result := true;
  timeClient_getEpochTime := 1700000000;
  getMacAddr := [36; 111; 40; 170; 187; 204]
|}.

Definition env_other_device : Env := {|
  mqtt := true;
  MDNS_begin_result := true;
  timeClient_update_result := true;
  timeClient_getEpochTime := 1700000000;
  getMacAddr := [36; 111; 40; 170; 187; 205]
|}.

End Scenario.

(** ** Lemmas on the monad and on C strings *)

Lemma state_after_bind {A B} (m : M A) (k : A -> M B) (w : World) :
  state_after (bind m k) w = state_after (k (result m w)) (state_after m w).
Proof.
  unfold state_after, result, bind.
  destruct (m w) as [[a w1] out1]; cbn.
  destruct (k a w1) as [[b w2] out2]; reflexivity.
Qed.

Lemma actions_bind {A B} (m : M A) (k : A -> M B) (w : World) :
  actions (bind m k) w = actions m w ++ actions (k (result m w)) (state_after m w).
Proof.
  unfold actions, state_after, result, bind.
  destruct (m w) as [[a w1] out1]; cbn.
  destruct (k a w1) as [[b w2] out2]; reflexivity.
Qed.

Lemma count_app (p : Action -> bool) (l1 l2 : list Action) :
  count p (l1 ++ l2) = (count p l1 + count p l2)%nat.
Proof. unfold count. rewrite filter_app, length_app. reflexivity. Qed.

Lemma nonzero_deref_iff (buf : string) :
  CStr.nonzero (CStr.deref buf) = true <-> CStr.to_string buf <> "".
Proof.
  destruct buf as [|c rest]; cbn.
  - split; [discriminate | congruence].
  - unfold CStr.nonzero. destruct (Ascii.eqb c Ascii.zero); cbn.
    + split; [discriminate | congruence].
    + split; [discriminate | reflexivity].
Qed.

Lemma zero_deref_iff (buf : string) :
  CStr.nonzero (CStr.deref buf) = false <-> CStr.to_string buf = "".
Proof.
  destruct buf as [|c rest]; cbn.
  - split; reflexivity.
  - unfold CStr.nonzero. destruct (Ascii.eqb c Ascii.zero); cbn.
    + split; reflexivity.
    + split; discriminate.
Qed.

Lemma LinkState_eqb_Up (l : LinkState) : LinkState_eqb l Up = true <-> l = Up.
Proof. destruct l; cbn; split; congruence. Qed.

(** Unfolds one call of a function of the file down to pairs. *)
Ltac unfold_monad :=
  unfold state_after, actions, result, getWifiDisconnectReason,
    call_WiFi_begin, call_MDNS_begin, call_timeClient_update,
    WiFi_isConnected, when, bind, ret, emit, read, modify; cbn.

(** ** The availability predicate *)

(** C6. [isWifiAvailable()] is false whenever the configured network name is
    the empty string, whatever the enabled flag, and it is true exactly when
    the enabled flag is set and the name is not empty. *)
Theorem isWifiAvailable_spec (config : NetworkConfig) :
  (CStr.to_string (wifi_ssid config) = "" -> isWifiAvailable config = false)
  /\ (isWifiAvailable config = true <->
      wifi_enabled config = true /\ CStr.to_string (wifi_ssid config) <> "").
Proof.
  unfold isWifiAvailable. split.
  - intros Hname. apply zero_deref_iff in Hname. rewrite Hname.
    destruct (wifi_enabled config); reflexivity.
  - rewrite <- nonzero_deref_iff.
    destruct (wifi_enabled config), (CStr.nonzero (CStr.deref (wifi_ssid config)));
      cbn; intuition congruence.
Qed.

(** ** The reconnect task *)

(** The four ways through one run of the task, by the link, the flags and
    the name. *)
Lemma reconnectWiFi_connects (config : NetworkConfig) (env : Env) (w : World) :
  wifi_enabled config = true ->
  needReconnect w = true ->
  link w <> Up ->
  CStr.nonzero (CStr.deref (wifi_ssid config)) = true ->
  reconnectWiFi config env w =
    (43200 * 1000,
     set_link (link_on_connect (link w)) (set_needReconnect false w),
     [WiFi_disconnect false true;
      DEBUG_MSG "... Reconnecting to WiFi access point";
      WiFi_mode WIFI_MODE_STA;
      WiFi_begin (CStr.to_string (wifi_ssid config))
        (if negb (CStr.nonzero (CStr.deref (wifi_psk config))) then None
         else Some (CStr.to_string (wifi_psk config)))]).
Proof.
  destruct w as [reason host complete need task l]; cbn.
  intros Hen Hneed Hlink Hname. subst need.
  unfold reconnectWiFi. unfold_monad.
  rewrite Hen, Hname.
  destruct l; try congruence; cbn;
    destruct (CStr.nonzero (CStr.deref (wifi_psk config))); reflexivity.
Qed.

Lemma reconnectWiFi_idle (config : NetworkConfig) (env : Env) (w : World) :
  link w <> Up ->
  wifi_enabled config && needReconnect w
    && CStr.nonzero (CStr.deref (wifi_ssid config)) = false ->
  reconnectWiFi config env w = (43200 * 1000, w, []).
Proof.
  destruct w as [reason host complete need task l]; cbn.
  intros Hlink Hguard.
  unfold reconnectWiFi. unfold_monad.
  destruct l; try congruence; cbn;
    destruct (wifi_enabled config), need,
      (CStr.nonzero (CStr.deref (wifi_ssid config)));
    cbn in *; try discriminate; reflexivity.
Qed.

Lemma reconnectWiFi_up (config : NetworkConfig) (env : Env) (w : World) :
  link w = Up ->
  reconnectWiFi config env w =
    (43200 * 1000, w,
     DEBUG_MSG "Updating NTP time" :: timeClient_update ::
     (if timeClient_update_result env then
        [DEBUG_MSG "NTP Request Success - Setting RTCQualityNTP if needed";
         perhapsSetRTC RTCQualityNTP
           {| tv_sec := timeClient_getEpochTime env; tv_usec := 0 |}]
      else [DEBUG_MSG "NTP Update failed"])).
Proof.
  destruct w as [reason host complete need task l]; cbn.
  intros Hlink. subst l.
  unfold reconnectWiFi. unfold_monad.
  rewrite !andb_false_r; cbn.
  destruct (timeClient_update_result env); reflexivity.
Qed.

(** Every run of the task is one of the three above. *)
Lemma reconnectWiFi_cases (config : NetworkConfig) (env : Env) (w : World) :
  link w = Up
  \/ (link w <> Up /\
      wifi_enabled config && needReconnect w
        && CStr.nonzero (CStr.deref (wifi_ssid config)) = false)
  \/ (link w <> Up /\ wifi_enabled config = true /\ needReconnect w = true /\
      CStr.nonzero (CStr.deref (wifi_ssid config)) = true).
Proof.
  destruct (link w); [right | right | left; reflexivity];
    destruct (wifi_enabled config), (needReconnect w),
      (CStr.nonzero (CStr.deref (wifi_ssid config))); cbn;
    try (left; split; [discriminate | reflexivity]);
    right; repeat split; discriminate.
Qed.

(** C9. The task returns the same delay on every run, twelve hours in
    milliseconds, whatever the configuration, the link and the flag, and
    whether it connected, did nothing or refreshed the time. *)
Theorem reconnectWiFi_delay (config : NetworkConfig) (env : Env) (w : World) :
  result (reconnectWiFi config env) w = 43200 * 1000
  /\ 43200 * 1000 = 12 * 60 * 60 * 1000
  /\ - 2 ^ 31 <= 43200 * 1000 < 2 ^ 31.
Proof.
  split; [| split; [reflexivity | lia]].
  unfold result.
  destruct (reconnectWiFi_cases config env w) as [Hup | [[Hl Hg] | (Hl & He & Hn & Hs)]].
  - rewrite (reconnectWiFi_up config env w Hup). reflexivity.
  - rewrite (reconnectWiFi_idle config env w Hl Hg). reflexivity.
  - rewrite (reconnectWiFi_connects config env w He Hn Hl Hs). reflexivity.
Qed.

Lemma reconnectWiFi_keeps_reason (config : NetworkConfig) (env : Env) (w : World) :
  wifiDisconnectReason (state_after (reconnectWiFi config env) w)
  = wifiDisconnectReason w.
Proof.
  unfold state_after.
  destruct (reconnectWiFi_cases config env w) as [Hup | [[Hl Hg] | (Hl & He & Hn & Hs)]].
  - rewrite (reconnectWiFi_up config env w Hup). reflexivity.
  - rewrite (reconnectWiFi_idle config env w Hl Hg). reflexivity.
  - rewrite (reconnectWiFi_connects config env w He Hn Hl Hs). reflexivity.
Qed.

Lemma onNetworkConnected_keeps_reason (env : Env) (w : World) :
  wifiDisconnectReason (state_after (onNetworkConnected env) w)
  = wifiDisconnectReason w.
Proof.
  destruct w as [reason host complete need task l].
  unfold onNetworkConnected. unfold_monad.
  destruct complete, (MDNS_begin_result env), (mqtt env); reflexivity.
Qed.

Lemma deliver_keeps_reason (event : WiFiEvent_t) (info : WiFiEventInfo_t)
    (env : Env) (w : World) :
  event <> SYSTEM_EVENT_STA_DISCONNECTED ->
  wifiDisconnectReason (state_after (deliver event info env) w)
  = wifiDisconnectReason w.
Proof.
  intros Hev. unfold deliver.
  rewrite !state_after_bind.
  destruct event; try congruence;
    try (unfold WiFiEvent; unfold_monad; reflexivity);
    unfold WiFiEvent; rewrite !state_after_bind;
    cbn [state_after ret fst snd];
    rewrite onNetworkConnected_keeps_reason; reflexivity.
Qed.

(** C7. One run of the reconnect task leaves the stored disconnect reason
    as it was, so [getWifiDisconnectReason()] returns the same value before
    and after; the only input that overwrites it is a station-disconnected
    event. *)
Theorem disconnect_reason_frame (config : NetworkConfig) (w : World) :
  (forall env,
      result getWifiDisconnectReason (state_after (reconnectWiFi config env) w)
      = result getWifiDisconnectReason w)
  /\ (forall i,
         is_disconnected_event i = false ->
         result getWifiDisconnectReason (state_after (step config i) w)
         = result getWifiDisconnectReason w).
Proof.
  assert (Htick : forall env,
             wifiDisconnectReason (state_after (reconnectWiFi config env) w)
             = wifiDisconnectReason w)
    by (intros; apply reconnectWiFi_keeps_reason).
  split.
  - intros env. apply Htick.
  - intros [env [event info |]] Hev; unfold step; cbn [snd fst].
    + unfold getWifiDisconnectReason, result, read; cbn [fst].
      apply deliver_keeps_reason.
      intros ->. discriminate Hev.
    + rewrite state_after_bind. apply Htick.
Qed.

Lemma stored_secret_pointer (config : NetworkConfig) :
  (if negb (CStr.nonzero (CStr.deref (wifi_psk config))) then None
   else Some (CStr.to_string (wifi_psk config)))
  = stored_secret config.
Proof.
  unfold stored_secret.
  destruct (wifi_psk config) as [|c rest]; cbn; [reflexivity |].
  unfold CStr.nonzero. destruct (Ascii.eqb c Ascii.zero); reflexivity.
Qed.

Lemma reconnectWiFi_no_connect (config : NetworkConfig) (env : Env) (w : World) :
  link w = Up \/ wifi_enabled config = false \/ needReconnect w = false
  \/ CStr.to_string (wifi_ssid config) = "" ->
  count is_connect (actions (reconnectWiFi config env) w) = 0%nat.
Proof.
  intros H. unfold actions.
  destruct (reconnectWiFi_cases config env w) as [Hup | [[Hl Hg] | (Hl & He & Hn & Hs)]].
  - rewrite (reconnectWiFi_up config env w Hup).
    destruct (timeClient_update_result env); reflexivity.
  - rewrite (reconnectWiFi_idle config env w Hl Hg). reflexivity.
  - apply nonzero_deref_iff in Hs.
    destruct H as [H | [H | [H | H]]]; congruence.
Qed.

(** ** The handlers and the setup issue no connect command *)

Lemma deliver_no_connect (event : WiFiEvent_t) (info : WiFiEventInfo_t)
    (env : Env) (w : World) :
  count is_connect (actions (deliver event info env) w) = 0%nat.
Proof.
  destruct w as [reason host complete need task l].
  unfold deliver, WiFiEvent, onNetworkConnected, onStaDisconnected.
  destruct event; unfold_monad; try reflexivity;
    destruct complete, (MDNS_begin_result env), (mqtt env); reflexivity.
Qed.

Lemma initWifi_no_connect (config : NetworkConfig) (env : Env) (w : World) :
  count is_connect (actions (initWifi config env) w) = 0%nat.
Proof.
  unfold initWifi, initWifi_frame; cbn [initWifi_wifiName].
  destruct (wifi_enabled config), (CStr.nonzero (CStr.deref (wifi_ssid config)));
    unfold_monad; try reflexivity.
  destruct (eth_mode config); try reflexivity.
  destruct (ip (ipv4_config config) =? 0); reflexivity.
Qed.

Lemma step_no_connect (config : NetworkConfig) (i : Env * Input) (w : World) :
  wifi_enabled config = false \/ CStr.to_string (wifi_ssid config) = "" ->
  count is_connect (actions (step config i) w) = 0%nat.
Proof.
  intros H. destruct i as [env [event info |]]; unfold step; cbn [snd fst].
  - apply deliver_no_connect.
  - rewrite actions_bind, count_app, reconnectWiFi_no_connect by tauto.
    reflexivity.
Qed.

Lemma run_no_connect (config : NetworkConfig) (inputs : list (Env * Input)) :
  wifi_enabled config = false \/ CStr.to_string (wifi_ssid config) = "" ->
  forall w, count is_connect (actions (run config inputs) w) = 0%nat.
Proof.
  intros H. induction inputs as [|i rest IH]; intros w; cbn [run].
  - reflexivity.
  - rewrite actions_bind, count_app, step_no_connect, IH by exact H.
    reflexivity.
Qed.

(** C3. On a tick with the network enabled, the reconnect flag set, the
    link not up and a network name configured, the flag is cleared and the
    task issues a disconnect that erases the old credentials followed by a
    connect with the stored name and secret.  With the network disabled or
    no name configured a tick issues no connect command, whatever the
    flag, and neither does the setup followed by any run of events and
    ticks. *)
Theorem reconnectWiFi_connect_spec (config : NetworkConfig) (env : Env) (w : World) :
  (wifi_enabled config = true ->
   needReconnect w = true ->
   link w <> Up ->
   CStr.to_string (wifi_ssid config) <> "" ->
   needReconnect (state_after (reconnectWiFi config env) w) = false
   /\ actions (reconnectWiFi config env) w =
        [WiFi_disconnect false true;
         DEBUG_MSG "... Reconnecting to WiFi access point";
         WiFi_mode WIFI_MODE_STA;
         WiFi_begin (CStr.to_string (wifi_ssid config)) (stored_secret config)])
  /\ (wifi_enabled config = false \/ CStr.to_string (wifi_ssid config) = "" ->
      count is_connect (actions (reconnectWiFi config env) w) = 0%nat
      /\ forall env0 inputs,
           count is_connect
             (actions (_ <- initWifi config env0 ;; run config inputs) w) = 0%nat).
Proof.
  split.
  - intros Hen Hneed Hlink Hname.
    apply nonzero_deref_iff in Hname.
    unfold state_after, actions.
    rewrite (reconnectWiFi_connects config env w Hen Hneed Hlink Hname).
    rewrite stored_secret_pointer. split; reflexivity.
  - intros H. split.
    + apply reconnectWiFi_no_connect. tauto.
    + intros env0 inputs.
      rewrite actions_bind, count_app, initWifi_no_connect, run_no_connect
        by exact H.
      reflexivity.
Qed.

(** C8. On a tick with the link up the task asks the NTP client for one
    time sample; when that succeeds it submits the epoch seconds, with zero
    microseconds, to the clock arbiter with the quality [RTCQualityNTP];
    when it fails it logs and does nothing more.  With the link not up no
    sample is asked for and nothing is submitted. *)
Theorem time_sync_spec (config : NetworkConfig) (env : Env) (w : World) :
  (link w = Up ->
   state_after (reconnectWiFi config env) w = w
   /\ actions (reconnectWiFi config env) w =
        if timeClient_update_result env then
          [DEBUG_MSG "Updating NTP time";
           timeClient_update;
           DEBUG_MSG "NTP Request Success - Setting RTCQualityNTP if needed";
           perhapsSetRTC RTCQualityNTP
             {| tv_sec := timeClient_getEpochTime env; tv_usec := 0 |}]
        else
          [DEBUG_MSG "Updating NTP time";
           timeClient_update;
           DEBUG_MSG "NTP Update failed"])
  /\ (link w <> Up ->
      count is_time_sync (actions (reconnectWiFi config env) w) = 0%nat).
Proof.
  split.
  - intros Hup. unfold state_after, actions.
    rewrite (reconnectWiFi_up config env w Hup).
    destruct (timeClient_update_result env); split; reflexivity.
  - intros Hl. unfold actions.
    destruct (reconnectWiFi_cases config env w) as [Hup | [[_ Hg] | (_ & He & Hn & Hs)]].
    + congruence.
    + rewrite (reconnectWiFi_idle config env w Hl Hg). reflexivity.
    + rewrite (reconnectWiFi_connects config env w He Hn Hl Hs). reflexivity.
Qed.

(** ** The secret of a connect command *)






(** ** The link-event handlers *)

Lemma to_uint8_small (v : Z) : 0 <= v < 256 -> to_uint8 v = v.
Proof. intros H. unfold to_uint8. apply Z.mod_small. exact H. Qed.

Lemma deliver_disconnected (info : WiFiEventInfo_t) (env : Env) (w : World) :
  state_after (deliver SYSTEM_EVENT_STA_DISCONNECTED info env) w =
  set_wifiDisconnectReason (to_uint8 (wifi_sta_disconnected_reason info))
    (set_needReconnect true (set_link Down w)).
Proof. reflexivity. Qed.

Lemma deliver_lost_ip (info : WiFiEventInfo_t) (env : Env) (w : World) :
  state_after (deliver SYSTEM_EVENT_STA_LOST_IP info env) w =
  set_needReconnect true (set_link Down w).
Proof. reflexivity. Qed.

(** C4, as the code has it.  A station-disconnected event sets the
    reconnect flag and stores the reason code of the event, which
    [getWifiDisconnectReason()] then returns; an address-lost event sets the
    reconnect flag and leaves the stored reason as it was. *)
Theorem link_loss_events (info : WiFiEventInfo_t) (env : Env) (w : World) :
  0 <= wifi_sta_disconnected_reason info < 256 ->
  let wd := state_after (deliver SYSTEM_EVENT_STA_DISCONNECTED info env) w in
  let wl := state_after (deliver SYSTEM_EVENT_STA_LOST_IP info env) w in
  needReconnect wd = true
  /\ result getWifiDisconnectReason wd = wifi_sta_disconnected_reason info
  /\ needReconnect wl = true
  /\ result getWifiDisconnectReason wl = result getWifiDisconnectReason w.
Proof.
  intros Hrange wd wl. subst wd wl.
  rewrite deliver_disconnected, deliver_lost_ip.
  unfold getWifiDisconnectReason, result, read; cbn.
  rewrite (to_uint8_small _ Hrange). tauto.
Qed.

(** C4 as stated fails: an address-lost event does not store a reason. *)
Lemma lost_ip_keeps_reason :
  ~ (forall event info env w,
        event = SYSTEM_EVENT_STA_DISCONNECTED \/ event = SYSTEM_EVENT_STA_LOST_IP ->
        let w' := state_after (deliver event info env) w in
        needReconnect w' = true
        /\ result getWifiDisconnectReason w' = wifi_sta_disconnected_reason info).
Proof.
  intros H.
  destruct (H SYSTEM_EVENT_STA_LOST_IP (Scenario.reason 8) Scenario.env
              process_start (or_intror eq_refl)) as [_ Hreason].
  discriminate Hreason.
Qed.

Lemma onNetworkConnected_notifies (env : Env) (w : World) :
  exists out,
    actions (onNetworkConnected env) w
    = out ++ (if mqtt env then [mqtt_reconnect] else [])
    /\ count is_mqtt_reconnect out = 0%nat.
Proof.
  unfold onNetworkConnected.
  rewrite actions_bind.
  change (actions (read APStartupComplete) w) with (@nil Action); cbn [app].
  rewrite actions_bind.
  eexists. split.
  - f_equal. destruct (mqtt env); reflexivity.
  - destruct w as [reason host complete need task l].
    unfold_monad.
    destruct complete, (MDNS_begin_result env); reflexivity.
Qed.

Lemma deliver_usable (event : WiFiEvent_t) (info : WiFiEventInfo_t)
    (env : Env) (w : World) :
  became_usable event = true ->
  exists logs,
    forallb is_log logs = true
    /\ deliver event info env w =
       (tt, state_after (onNetworkConnected env) (set_link Up w),
        logs ++ actions (onNetworkConnected env) (set_link Up w)).
Proof.
  intros Hev. unfold deliver, WiFiEvent, state_after, actions.
  generalize (onNetworkConnected env). intros k.
  destruct event; try discriminate Hev; unfold_monad;
    destruct (k (set_link Up w)) as [[[] w'] out]; cbn;
    rewrite app_nil_r.
  - exists [DEBUG_MSG "************ [WiFi-event] event: %d ************";
            DEBUG_MSG "Obtained IP address: "; Serial_println_localIP].
    split; reflexivity.
  - exists [DEBUG_MSG "************ [WiFi-event] event: %d ************";
            DEBUG_MSG "WiFi access point started"].
    split; reflexivity.
Qed.

Lemma onNetworkConnected_keeps_link (env : Env) (w : World) :
  link (state_after (onNetworkConnected env) w) = link w.
Proof.
  destruct w as [reason host complete need task l].
  unfold onNetworkConnected. unfold_monad.
  destruct complete, (MDNS_begin_result env), (mqtt env); reflexivity.
Qed.

Lemma count_logs (p : Action -> bool) (logs : list Action) :
  (forall a, is_log a = true -> p a = false) ->
  forallb is_log logs = true -> count p logs = 0%nat.
Proof.
  intros Hp. unfold count. induction logs as [|a logs IH]; cbn; intros H.
  - reflexivity.
  - apply andb_true_iff in H. destruct H as [Ha Hl].
    rewrite (Hp a Ha). apply IH, Hl.
Qed.

Lemma log_is_no_notification (a : Action) :
  is_log a = true -> is_mqtt_reconnect a = false.
Proof. destruct a; cbn; congruence. Qed.

(** C5, as the code has it.  Every usable event, address acquired or
    access point started alike, and whether or not the services were
    started before, brings the link up and runs [onNetworkConnected]; that
    ends with one call of the MQTT client's reconnect when there is such a
    client, and with no such call when the [mqtt] pointer is null. *)
Theorem usable_event_notifies (event : WiFiEvent_t) (info : WiFiEventInfo_t)
    (env : Env) (w : World) :
  became_usable event = true ->
  link (state_after (deliver event info env) w) = Up
  /\ state_after (deliver event info env) w
     = state_after (onNetworkConnected env) (set_link Up w)
  /\ (exists logs,
         forallb is_log logs = true
         /\ actions (deliver event info env) w
            = logs ++ actions (onNetworkConnected env) (set_link Up w))
  /\ (mqtt env = true ->
      exists out,
        actions (deliver event info env) w = out ++ [mqtt_reconnect]
        /\ count is_mqtt_reconnect out = 0%nat)
  /\ (mqtt env = false ->
      count is_mqtt_reconnect (actions (deliver event info env) w) = 0%nat).
Proof.
  intros Hev.
  destruct (deliver_usable event info env w Hev) as (logs & Hlogs & Hrun).
  destruct (onNetworkConnected_notifies env (set_link Up w)) as (out & Hout & Hcount).
  assert (Hnolog : count is_mqtt_reconnect logs = 0%nat)
    by (apply count_logs; [exact log_is_no_notification | exact Hlogs]).
  unfold state_after at 1 2, actions at 1 3 4. rewrite Hrun. cbn [fst snd].
  split; [| split; [| split; [| split]]].
  - rewrite onNetworkConnected_keeps_link. reflexivity.
  - reflexivity.
  - exists logs. split; [exact Hlogs | reflexivity].
  - intros Hmqtt. rewrite Hout, Hmqtt. exists (logs ++ out).
    split; [apply app_assoc |].
    rewrite count_app, Hnolog, Hcount. reflexivity.
  - intros Hmqtt. rewrite Hout, Hmqtt, app_nil_r.
    rewrite count_app, Hnolog, Hcount. reflexivity.
Qed.

(** C5 as stated fails: without an MQTT client nothing is notified. *)
Lemma usable_event_without_client :
  ~ (forall event info env w,
        became_usable event = true ->
        In mqtt_reconnect (actions (deliver event info env) w)).
Proof.
  intros H.
  specialize (H SYSTEM_EVENT_STA_GOT_IP (Scenario.reason 0)
                Scenario.env_without_mqtt process_start eq_refl).
  vm_compute in H.
  repeat (destruct H as [H | H]; [discriminate H |]).
  exact H.
Qed.

(** ** The startup gate *)

Lemma service_starts_app (l1 l2 : list Action) :
  service_starts (l1 ++ l2) =
  let '(m1, n1, s1, a1) := service_starts l1 in
  let '(m2, n2, s2, a2) := service_starts l2 in
  (m1 + m2, n1 + n2, s1 + s2, a1 + a2)%nat.
Proof. unfold service_starts. rewrite !count_app. reflexivity. Qed.

Lemma service_starts_logs (logs : list Action) :
  forallb is_log logs = true -> service_starts logs = (0, 0, 0, 0)%nat.
Proof.
  intros H. unfold service_starts.
  rewrite !(fun p Hp => count_logs p logs Hp H);
    [reflexivity | | | |]; intros a; destruct a; cbn; congruence.
Qed.

Lemma onNetworkConnected_gate (env : Env) (w : World) :
  service_starts (actions (onNetworkConnected env) w)
  = (if APStartupComplete w then (0, 0, 0, 0) else (1, 1, 1, 1))%nat
  /\ APStartupComplete (state_after (onNetworkConnected env) w) = true.
Proof.
  destruct w as [reason host complete need task l].
  unfold onNetworkConnected. unfold_monad.
  destruct complete, (MDNS_begin_result env), (mqtt env); split; reflexivity.
Qed.

Lemma reconnectWiFi_starts_nothing (config : NetworkConfig) (env : Env) (w : World) :
  service_starts (actions (reconnectWiFi config env) w) = (0, 0, 0, 0)%nat
  /\ APStartupComplete (state_after (reconnectWiFi config env) w)
     = APStartupComplete w.
Proof.
  unfold actions, state_after.
  destruct (reconnectWiFi_cases config env w) as [Hup | [[Hl Hg] | (Hl & He & Hn & Hs)]].
  - rewrite (reconnectWiFi_up config env w Hup).
    destruct (timeClient_update_result env); split; reflexivity.
  - rewrite (reconnectWiFi_idle config env w Hl Hg). split; reflexivity.
  - rewrite (reconnectWiFi_connects config env w He Hn Hl Hs). split; reflexivity.
Qed.

Lemma deliver_other_starts_nothing (event : WiFiEvent_t) (info : WiFiEventInfo_t)
    (env : Env) (w : World) :
  became_usable event = false ->
  service_starts (actions (deliver event info env) w) = (0, 0, 0, 0)%nat
  /\ APStartupComplete (state_after (deliver event info env) w)
     = APStartupComplete w.
Proof.
  intros Hev. unfold deliver, WiFiEvent, onStaDisconnected.
  destruct event; try discriminate Hev; unfold_monad; split; reflexivity.
Qed.

Lemma step_gate (config : NetworkConfig) (i : Env * Input) (w : World) :
  service_starts (actions (step config i) w)
  = (if input_became_usable i && negb (APStartupComplete w)
     then (1, 1, 1, 1) else (0, 0, 0, 0))%nat
  /\ APStartupComplete (state_after (step config i) w)
     = APStartupComplete w || input_became_usable i.
Proof.
  destruct i as [env [event info |]];
    unfold step, input_became_usable; cbn [fst snd].
  - destruct (became_usable event) eqn:Hev.
    + destruct (deliver_usable event info env w Hev) as (logs & Hlogs & Hrun).
      unfold actions, state_after at 1. rewrite Hrun. cbn [fst snd].
      destruct (onNetworkConnected_gate env (set_link Up w)) as [Hs Hc].
      rewrite service_starts_app, (service_starts_logs logs Hlogs), Hs, Hc.
      cbn. destruct (APStartupComplete w); split; reflexivity.
    + destruct (deliver_other_starts_nothing event info env w Hev) as [Hs Hc].
      rewrite Hs, Hc, orb_false_r. split; reflexivity.
  - rewrite actions_bind, state_after_bind.
    destruct (reconnectWiFi_starts_nothing config env w) as [Hs Hc].
    rewrite service_starts_app, Hs, orb_false_r. cbn. split; [reflexivity | exact Hc].
Qed.

Lemma run_gate (config : NetworkConfig) (inputs : list (Env * Input)) :
  forall w,
    service_starts (actions (run config inputs) w)
    = (if existsb input_became_usable inputs && negb (APStartupComplete w)
       then (1, 1, 1, 1) else (0, 0, 0, 0))%nat
    /\ APStartupComplete (state_after (run config inputs) w)
       = APStartupComplete w || existsb input_became_usable inputs.
Proof.
  induction inputs as [|i rest IH]; intros w; cbn [run existsb].
  - cbn. rewrite orb_false_r. split; reflexivity.
  - rewrite actions_bind, state_after_bind.
    destruct (step_gate config i w) as [Hs Hc].
    destruct (IH (state_after (step config i) w)) as [Hs' Hc'].
    rewrite service_starts_app, Hs, Hs', Hc', Hc.
    destruct (APStartupComplete w), (input_became_usable i),
      (existsb input_became_usable rest); split; reflexivity.
Qed.

Lemma run_app (config : NetworkConfig) (l1 l2 : list (Env * Input)) (w : World) :
  state_after (run config (l1 ++ l2)) w
  = state_after (run config l2) (state_after (run config l1) w)
  /\ actions (run config (l1 ++ l2)) w
     = actions (run config l1) w
       ++ actions (run config l2) (state_after (run config l1) w).
Proof.
  revert w. induction l1 as [|i l1 IH]; intros w; cbn [app run].
  - split; reflexivity.
  - rewrite !state_after_bind, !actions_bind.
    destruct (IH (state_after (step config i) w)) as [Hs Ha].
    rewrite Hs, Ha, app_assoc. split; reflexivity.
Qed.

Lemma initWifi_keeps_flags (config : NetworkConfig) (env : Env) (w : World) :
  let w' := state_after (initWifi config env) w in
  APStartupComplete w' = APStartupComplete w
  /\ needReconnect w' = needReconnect w
  /\ link w' = link w
  /\ wifiDisconnectReason w' = wifiDisconnectReason w.
Proof.
  unfold initWifi, initWifi_frame; cbn [initWifi_wifiName].
  destruct (wifi_enabled config), (CStr.nonzero (CStr.deref (wifi_ssid config)));
    unfold_monad; try tauto.
  destruct (eth_mode config); cbn; try tauto.
  destruct (ip (ipv4_config config) =? 0); cbn; tauto.
Qed.

(** C2. In a process run whose inputs hold at least one usable event
    (address acquired or access point started), the four dependent services
    (mDNS, NTP client, web server, API server) are started exactly once: not
    before the first usable event, once while it is handled, and not after
    it, whatever else arrives. *)
Theorem startup_gate_once (config : NetworkConfig) (env0 : Env)
    (pre : list (Env * Input)) (i : Env * Input) (post : list (Env * Input)) :
  existsb input_became_usable pre = false ->
  input_became_usable i = true ->
  let w0 := after_setup config env0 in
  let w1 := state_after (run config pre) w0 in
  let w2 := state_after (step config i) w1 in
  service_starts (actions (run config pre) w0) = (0, 0, 0, 0)%nat
  /\ service_starts (actions (step config i) w1) = (1, 1, 1, 1)%nat
  /\ service_starts (actions (run config post) w2) = (0, 0, 0, 0)%nat
  /\ service_starts (actions (run config (pre ++ i :: post)) w0) = (1, 1, 1, 1)%nat.
Proof.
  intros Hpre Hi w0 w1 w2.
  assert (H0 : APStartupComplete w0 = false).
  { subst w0. unfold after_setup.
    destruct (initWifi_keeps_flags config env0 process_start) as [H _].
    rewrite H. reflexivity. }
  destruct (run_gate config pre w0) as [Hs1 Hc1].
  rewrite Hpre, H0 in Hs1, Hc1. cbn in Hs1, Hc1. fold w1 in Hc1.
  destruct (step_gate config i w1) as [Hs2 Hc2].
  rewrite Hi, Hc1 in Hs2, Hc2. cbn in Hs2, Hc2. fold w2 in Hc2.
  destruct (run_gate config post w2) as [Hs3 _].
  rewrite Hc2, andb_false_r in Hs3.
  destruct (run_gate config (pre ++ i :: post) w0) as [Hs4 _].
  rewrite existsb_app in Hs4. cbn [existsb] in Hs4.
  rewrite Hi, H0, orb_true_r in Hs4. cbn in Hs4.
  repeat split; assumption.
Qed.

(** ** The reconnect flag and the link *)

Lemma onNetworkConnected_frame (env : Env) (w : World) :
  state_after (onNetworkConnected env) w = set_APStartupComplete true w.
Proof.
  destruct w as [reason host complete need task l].
  unfold onNetworkConnected. unfold_monad.
  destruct complete, (MDNS_begin_result env), (mqtt env); reflexivity.
Qed.

Lemma deliver_lost (event : WiFiEvent_t) (info : WiFiEventInfo_t)
    (env : Env) (w : World) :
  link_lost event = true ->
  needReconnect (state_after (deliver event info env) w) = true
  /\ link (state_after (deliver event info env) w) = Down.
Proof.
  intros Hev. destruct event; try discriminate Hev; split; reflexivity.
Qed.

Lemma deliver_keeps_flag (event : WiFiEvent_t) (info : WiFiEventInfo_t)
    (env : Env) (w : World) :
  link_lost event = false ->
  needReconnect (state_after (deliver event info env) w) = needReconnect w.
Proof.
  intros Hlost. destruct (became_usable event) eqn:Hev.
  - destruct (deliver_usable event info env w Hev) as (logs & _ & Hrun).
    unfold state_after at 1. rewrite Hrun. cbn [fst snd].
    rewrite onNetworkConnected_frame. reflexivity.
  - unfold deliver, WiFiEvent.
    destruct event; try discriminate Hev; try discriminate Hlost; reflexivity.
Qed.

(** What one input does to the flag. *)
Lemma step_flag (config : NetworkConfig) (i : Env * Input) (w : World) :
  let w' := state_after (step config i) w in
  (input_link_lost i = true -> needReconnect w' = true)
  /\ (count is_connect (actions (step config i) w) <> 0%nat ->
      needReconnect w' = false /\ link w <> Up)
  /\ (input_became_usable i = true ->
      link w' = Up /\ needReconnect w' = needReconnect w)
  /\ (needReconnect w = true ->
      needReconnect w' = false ->
      is_tick i = true
      /\ count is_connect (actions (step config i) w) = 1%nat).
Proof.
  cbn zeta.
  destruct i as [env [event info |]];
    unfold step, input_link_lost, input_became_usable, is_tick; cbn [fst snd].
  - split; [| split; [| split]].
    + intros Hlost. apply (deliver_lost event info env w Hlost).
    + rewrite deliver_no_connect. congruence.
    + intros Hev.
      destruct (deliver_usable event info env w Hev) as (logs & _ & Hrun).
      unfold state_after at 1 2. rewrite Hrun. cbn [fst snd].
      rewrite onNetworkConnected_frame. split; reflexivity.
    + intros Hset Hclear.
      destruct (link_lost event) eqn:Hlost.
      * destruct (deliver_lost event info env w Hlost) as [Hkept _]. congruence.
      * rewrite (deliver_keeps_flag event info env w Hlost) in Hclear. congruence.
  - rewrite actions_bind, state_after_bind.
    change (actions (ret tt) (state_after (reconnectWiFi config env) w))
      with (@nil Action).
    change (state_after (ret tt) (state_after (reconnectWiFi config env) w))
      with (state_after (reconnectWiFi config env) w).
    rewrite app_nil_r. unfold state_after, actions.
    destruct (reconnectWiFi_cases config env w) as [Hup | [[Hl Hg] | (Hl & He & Hn & Hs)]].
    + rewrite (reconnectWiFi_up config env w Hup). cbn [fst snd].
      split; [discriminate | split; [| split; [discriminate |]]].
      * intros H. exfalso. apply H.
        destruct (timeClient_update_result env); reflexivity.
      * intros Hset Hclear. congruence.
    + rewrite (reconnectWiFi_idle config env w Hl Hg). cbn [fst snd].
      split; [discriminate | split; [| split; [discriminate |]]].
      * intros H. exfalso. apply H. reflexivity.
      * intros Hset Hclear. congruence.
    + rewrite (reconnectWiFi_connects config env w He Hn Hl Hs). cbn [fst snd].
      split; [discriminate | split; [| split; [discriminate |]]].
      * intros _. split; [reflexivity | exact Hl].
      * intros _ _. split; reflexivity.
Qed.

(** C1, as the code has it.  In every state a process reaches: a tick that
    finds the link up issues no connect command and changes nothing; the
    reconnect flag is set right after every disconnected or address-lost
    event and cleared right after a connect command is issued, which happens
    only while the link is not up; an event that brings the link up leaves
    the flag as it was; and the flag goes from set to cleared only on a tick
    that issues a connect command.  So the flag can be set while the link is
    up. *)
Theorem reconnect_flag_invariant (config : NetworkConfig) (w : World) :
  reachable config w ->
  (link w = Up ->
   forall env,
     count is_connect (actions (reconnectWiFi config env) w) = 0%nat
     /\ state_after (reconnectWiFi config env) w = w)
  /\ (forall i,
         let w' := state_after (step config i) w in
         (input_link_lost i = true -> needReconnect w' = true)
         /\ (count is_connect (actions (step config i) w) <> 0%nat ->
             needReconnect w' = false /\ link w <> Up)
         /\ (input_became_usable i = true ->
             link w' = Up /\ needReconnect w' = needReconnect w)
         /\ (needReconnect w = true ->
             needReconnect w' = false ->
             is_tick i = true
             /\ count is_connect (actions (step config i) w) = 1%nat)).
Proof.
  intros _. split.
  - intros Hup env. split.
    + apply reconnectWiFi_no_connect. left. exact Hup.
    + unfold state_after at 1.
      rewrite (reconnectWiFi_up config env _ Hup). reflexivity.
  - intros i. apply step_flag.
Qed.

(** C1 as stated fails: after a disconnect that the stack repairs by
    itself the flag is still set and the link is up. *)
Lemma flag_set_while_up :
  ~ (forall config w,
        reachable config w ->
        (needReconnect w = true -> link w <> Up)
        /\ (link w = Up ->
            forall env,
              count is_connect (actions (reconnectWiFi config env) w) = 0%nat)).
Proof.
  intros H.
  destruct (H Scenario.open_network Scenario.world_reconnected_by_stack)
    as [Hflag _].
  - exists Scenario.env, Scenario.reconnected_by_stack. reflexivity.
  - apply Hflag; reflexivity.
Qed.

(** ** The scenarios of the specification, run on the model *)

(** Scenario 1: the first tick connects to the configured network, and the
    address-acquired event that follows starts the services once. *)
Example scenario_first_tick_connects :
  actions (run Scenario.protected_network [Scenario.tick])
    (after_setup Scenario.protected_network Scenario.env)
  = [WiFi_disconnect false true;
     DEBUG_MSG "... Reconnecting to WiFi access point";
     WiFi_mode WIFI_MODE_STA;
     WiFi_begin "MyNet" (Some "hunter22")]
  /\ service_starts
       (actions (run Scenario.protected_network [Scenario.tick; Scenario.got_ip])
          (after_setup Scenario.protected_network Scenario.env))
     = (1, 1, 1, 1)%nat.
Proof. split; reflexivity. Qed.

(** Scenario 2: a disconnect with reason 8 while the link is up sets the
    flag, stores the reason, and the next tick connects again. *)
Example scenario_disconnect_then_tick :
  let w := state_after (step Scenario.open_network (Scenario.disconnected 8))
             Scenario.world_up in
  link w = Down /\ needReconnect w = true
  /\ result getWifiDisconnectReason w = 8
  /\ count is_connect (actions (step Scenario.open_network Scenario.tick) w) = 1%nat.
Proof. repeat split; reflexivity. Qed.

(** Scenario 3: the second of two address-acquired events only notifies
    the MQTT client. *)
Example scenario_second_got_ip :
  actions (step Scenario.open_network Scenario.got_ip) Scenario.world_up
  = [DEBUG_MSG "************ [WiFi-event] event: %d ************";
     DEBUG_MSG "Obtained IP address: ";
     Serial_println_localIP;
     mqtt_reconnect].
Proof. reflexivity. Qed.

(** Scenario 4: with the network disabled a tick does nothing. *)
Example scenario_disabled :
  reconnectWiFi Scenario.wifi_off Scenario.env process_start
  = (43200000, process_start, []).
Proof. reflexivity. Qed.

(** The host name [initWifi] builds from the last two bytes of the MAC
    address. *)
Example scenario_host_name :
  ourHost (after_setup Scenario.open_network Scenario.env) = "Meshtastic-bbcc"
  /\ result (initWifi Scenario.open_network Scenario.env) process_start = true
  /\ result (initWifi Scenario.wifi_off Scenario.env) process_start = false.
Proof. repeat split; reflexivity. Qed.

(** ** The theorems at the scenarios *)

Lemma reconnect_flag_invariant_at_scenario :
  reachable Scenario.open_network Scenario.world_reconnected_by_stack
  /\ link Scenario.world_reconnected_by_stack = Up
  /\ needReconnect Scenario.world_reconnected_by_stack = true
  /\ count is_connect
       (actions (reconnectWiFi Scenario.open_network Scenario.env)
          Scenario.world_reconnected_by_stack) = 0%nat
  /\ needReconnect
       (state_after (step Scenario.open_network Scenario.ap_start)
          Scenario.world_reconnected_by_stack) = true.
Proof.
  assert (Hreach : reachable Scenario.open_network Scenario.world_reconnected_by_stack)
    by (exists Scenario.env, Scenario.reconnected_by_stack; reflexivity).
  destruct (reconnect_flag_invariant Scenario.open_network
              Scenario.world_reconnected_by_stack Hreach) as [Hup Hstep].
  split; [exact Hreach | split; [reflexivity | split; [reflexivity | split]]].
  - exact (proj1 (Hup eq_refl Scenario.env)).
  - destruct (Hstep Scenario.ap_start) as (_ & _ & Husable & _).
    exact (proj2 (Husable eq_refl)).
Defined.

Lemma startup_gate_once_at_scenario :
  existsb input_became_usable [Scenario.tick] = false
  /\ input_became_usable Scenario.got_ip = true
  /\ service_starts
       (actions
          (run Scenario.open_network
             ([Scenario.tick] ++ Scenario.got_ip ::
              [Scenario.disconnected 8; Scenario.tick; Scenario.got_ip;
               Scenario.ap_start]))
          (after_setup Scenario.open_network Scenario.env))
     = (1, 1, 1, 1)%nat.
Proof.
  split; [reflexivity | split; [reflexivity |]].
  apply (startup_gate_once Scenario.open_network Scenario.env
           [Scenario.tick] Scenario.got_ip
           [Scenario.disconnected 8; Scenario.tick; Scenario.got_ip;
            Scenario.ap_start]); reflexivity.
Defined.

Lemma reconnectWiFi_connect_spec_at_scenario :
  needReconnect
    (state_after (reconnectWiFi Scenario.protected_network Scenario.env) process_start)
  = false
  /\ actions (reconnectWiFi Scenario.protected_network Scenario.env) process_start
     = [WiFi_disconnect false true;
        DEBUG_MSG "... Reconnecting to WiFi access point";
        WiFi_mode WIFI_MODE_STA;
        WiFi_begin "MyNet" (Some "hunter22")].
Proof.
  apply (proj1 (reconnectWiFi_connect_spec Scenario.protected_network
                  Scenario.env process_start));
    [reflexivity | reflexivity | discriminate | discriminate].
Defined.

Lemma link_loss_events_at_scenario :
  0 <= wifi_sta_disconnected_reason (Scenario.reason 8) < 256
  /\ result getWifiDisconnectReason
       (state_after
          (deliver SYSTEM_EVENT_STA_DISCONNECTED (Scenario.reason 8) Scenario.env)
          Scenario.world_up)
     = 8.
Proof.
  assert (Hrange : 0 <= wifi_sta_disconnected_reason (Scenario.reason 8) < 256)
    by (cbn; lia).
  split; [exact Hrange |].
  exact (proj1 (proj2 (link_loss_events (Scenario.reason 8) Scenario.env
                         Scenario.world_up Hrange))).
Defined.

Lemma usable_event_notifies_at_scenario :
  became_usable SYSTEM_EVENT_AP_START = true
  /\ link (state_after
             (deliver SYSTEM_EVENT_AP_START (Scenario.reason 0) Scenario.env)
             Scenario.world_up)
     = Up.
Proof.
  split; [reflexivity |].
  exact (proj1 (usable_event_notifies SYSTEM_EVENT_AP_START (Scenario.reason 0)
                  Scenario.env Scenario.world_up eq_refl)).
Defined.

Lemma isWifiAvailable_spec_at_scenario :
  isWifiAvailable Scenario.open_network = true.
Proof.
  apply (proj2 (proj2 (isWifiAvailable_spec Scenario.open_network))).
  split; [reflexivity | discriminate].
Defined.

Lemma disconnect_reason_frame_at_scenario :
  is_disconnected_event Scenario.tick = false
  /\ result getWifiDisconnectReason
       (state_after (step Scenario.open_network Scenario.tick)
          Scenario.world_reconnected_by_stack)
     = result getWifiDisconnectReason Scenario.world_reconnected_by_stack.
Proof.
  split; [reflexivity |].
  apply (proj2 (disconnect_reason_frame Scenario.open_network
                  Scenario.world_reconnected_by_stack)).
  reflexivity.
Defined.

Lemma time_sync_spec_at_scenario :
  link Scenario.world_up = Up
  /\ actions (reconnectWiFi Scenario.open_network Scenario.env_ntp_down)
       Scenario.world_up
     = [DEBUG_MSG "Updating NTP time"; timeClient_update;
        DEBUG_MSG "NTP Update failed"].
Proof.
  split; [reflexivity |].
  apply (proj1 (time_sync_spec Scenario.open_network Scenario.env_ntp_down
                  Scenario.world_up)).
  reflexivity.
Defined.


(** * Further properties of the file *)

(** ** The setup *)

Lemma initWifi_unavailable (config : NetworkConfig) (env : Env) (w : World) :
  isWifiAvailable config = false ->
  initWifi config env w = (false, w, [DEBUG_MSG "Not using WIFI"]).
Proof.
  unfold isWifiAvailable, initWifi.
  destruct (wifi_enabled config && CStr.nonzero (CStr.deref (wifi_ssid config)));
    [discriminate | reflexivity].
Qed.

Lemma initWifi_available (config : NetworkConfig) (env : Env) (w : World) :
  isWifiAvailable config = true ->
  initWifi config env w =
    (true,
     set_wifiReconnect (Some "WifiConnect") (set_ourHost (host_name env) w),
     [createSSLCert; WiFi_mode WIFI_MODE_STA; WiFi_setHostname (host_name env);
      WiFi_onEvent_WiFiEvent; WiFi_setAutoReconnect true; WiFi_setSleep false]
     ++ (if uses_static_address config then
           [WiFi_config (ip (ipv4_config config)) (gateway (ipv4_config config))
              (subnet (ipv4_config config)) (dns (ipv4_config config))
              (dns (ipv4_config config))]
         else [])
     ++ [esp_wifi_set_ps_NONE; WiFi_onEvent_STA_DISCONNECTED;
         DEBUG_MSG "JOINING WIFI soon: ssid=%s"; new_Periodic "WifiConnect"]).
Proof.
  unfold isWifiAvailable, initWifi, initWifi_frame, uses_static_address, host_name.
  cbn [initWifi_wifiName].
  destruct (wifi_enabled config); [| discriminate].
  destruct (CStr.nonzero (CStr.deref (wifi_ssid config))); [| discriminate].
  intros _. unfold_monad.
  destruct (eth_mode config); [reflexivity |].
  destruct (ip (ipv4_config config) =? 0); reflexivity.
Qed.

(** X1. [initWifi()] returns what [isWifiAvailable()] returns.  When that is
    false it logs one line and changes nothing: no handler is registered and
    no task created.  When it is true it registers [WiFiEvent] and then the
    disconnect-reason handler, once each, and creates the reconnect task
    once. *)
Theorem initWifi_follows_availability (config : NetworkConfig) (env : Env) (w : World) :
  result (initWifi config env) w = isWifiAvailable config
  /\ (isWifiAvailable config = false ->
      state_after (initWifi config env) w = w
      /\ actions (initWifi config env) w = [DEBUG_MSG "Not using WIFI"])
  /\ (isWifiAvailable config = true ->
      wifiReconnect (state_after (initWifi config env) w) = Some "WifiConnect"
      /\ filter is_registration (actions (initWifi config env) w)
         = [WiFi_onEvent_WiFiEvent; WiFi_onEvent_STA_DISCONNECTED]
      /\ count is_new_Periodic (actions (initWifi config env) w) = 1%nat).
Proof.
  unfold result, state_after, actions, count.
  destruct (isWifiAvailable config) eqn:Hav.
  - rewrite (initWifi_available config env w Hav). cbn [fst snd].
    split; [reflexivity | split; [discriminate |]].
    intros _. destruct (uses_static_address config); repeat split; reflexivity.
  - rewrite (initWifi_unavailable config env w Hav). cbn [fst snd].
    split; [reflexivity | split; [| discriminate]].
    intros _. split; reflexivity.
Qed.

(** X2. [initWifi()] applies the static address exactly when the mode is
    static and the configured address is not zero, and then passes the one
    configured DNS server for both DNS arguments; otherwise it issues no
    [WiFi.config]. *)
Theorem initWifi_static_address (config : NetworkConfig) (env : Env) (w : World) :
  isWifiAvailable config = true ->
  (eth_mode config = Config_NetworkConfig_EthMode_STATIC ->
   ip (ipv4_config config) <> 0 ->
   filter is_WiFi_config (actions (initWifi config env) w)
   = [WiFi_config (ip (ipv4_config config)) (gateway (ipv4_config config))
        (subnet (ipv4_config config)) (dns (ipv4_config config))
        (dns (ipv4_config config))])
  /\ (eth_mode config <> Config_NetworkConfig_EthMode_STATIC
      \/ ip (ipv4_config config) = 0 ->
      filter is_WiFi_config (actions (initWifi config env) w) = []).
Proof.
  intros Hav. unfold actions.
  rewrite (initWifi_available config env w Hav). cbn [snd].
  unfold uses_static_address. split.
  - intros Hmode Hip. rewrite Hmode.
    apply Z.eqb_neq in Hip. rewrite Hip. reflexivity.
  - intros [Hmode | Hip].
    + destruct (eth_mode config); [reflexivity | congruence].
    + rewrite Hip. destruct (eth_mode config); reflexivity.
Qed.

(** ** The host name *)

Lemma to_uint8_range (v : Z) : 0 <= to_uint8 v < 256.
Proof. unfold to_uint8. apply Z.mod_pos_bound. lia. Qed.

Lemma hex_digit_is_hex (n : Z) : 0 <= n < 16 -> is_hex_char (hex_digit n) = true.
Proof.
  intros H. unfold hex_digit.
  assert (Hk : (Z.to_nat n < 16)%nat) by lia.
  revert Hk. generalize (Z.to_nat n) as k. intros k Hk.
  do 16 (destruct k as [|k]; [reflexivity |]). lia.
Qed.

Lemma hex_digits_distinct : NoDup (list_ascii_of_string "0123456789abcdef").
Proof.
  cbn. repeat (constructor; [cbn; intuition discriminate |]). constructor.
Qed.

Lemma hex_digit_injective (n m : Z) :
  0 <= n < 16 -> 0 <= m < 16 -> hex_digit n = hex_digit m -> n = m.
Proof.
  intros Hn Hm H. unfold hex_digit in H.
  apply (proj1 (NoDup_nth _ _) hex_digits_distinct) in H; cbn; try lia.
Qed.

Lemma hex02_injective (a b : Z) : hex02 a = hex02 b -> to_uint8 a = to_uint8 b.
Proof.
  unfold hex02. intros H. injection H as Hhi Hlo.
  pose proof (to_uint8_range a) as Ha. pose proof (to_uint8_range b) as Hb.
  apply hex_digit_injective in Hhi;
    [| split; [apply Z.div_pos | apply Z.div_lt_upper_bound]; lia
     | split; [apply Z.div_pos | apply Z.div_lt_upper_bound]; lia].
  apply hex_digit_injective in Hlo;
    [| apply Z.mod_pos_bound; lia | apply Z.mod_pos_bound; lia].
  rewrite (Z.div_mod (to_uint8 a) 16), (Z.div_mod (to_uint8 b) 16) by lia.
  rewrite Hhi, Hlo. reflexivity.
Qed.

Lemma hex02_digits (b : Z) :
  exists hi lo,
    hex02 b = String hi (String lo "")
    /\ is_hex_char hi = true /\ is_hex_char lo = true.
Proof.
  unfold hex02. pose proof (to_uint8_range b) as Hb.
  eexists. eexists. split; [reflexivity |]. split; apply hex_digit_is_hex.
  - split; [apply Z.div_pos | apply Z.div_lt_upper_bound]; lia.
  - apply Z.mod_pos_bound; lia.
Qed.

(** X3. The host name [initWifi()] prints is [Meshtastic-] followed by four
    lowercase hexadecimal digits, whatever the MAC address: fifteen
    characters, which with the terminator fill [ourHost[16]] exactly.  It is
    the name stored in [ourHost] and the name given to the stack. *)
Theorem initWifi_host_name (config : NetworkConfig) (env : Env) (w : World) :
  isWifiAvailable config = true ->
  let host := ourHost (state_after (initWifi config env) w) in
  (exists a b c d,
      host = ("Meshtastic-" ++ String a (String b (String c (String d ""))))%string
      /\ forallb is_hex_char [a; b; c; d] = true)
  /\ (String.length host + 1 = 16)%nat
  /\ In (WiFi_setHostname host) (actions (initWifi config env) w).
Proof.
  intros Hav host. subst host. unfold state_after, actions.
  rewrite (initWifi_available config env w Hav). cbn [fst snd ourHost set_wifiReconnect set_ourHost].
  unfold host_name.
  destruct (hex02_digits (nth 4 (getMacAddr env) 0)) as (a & b & Hab & Ha & Hb).
  destruct (hex02_digits (nth 5 (getMacAddr env) 0)) as (c & d & Hcd & Hc & Hd).
  rewrite Hab, Hcd. split; [| split].
  - exists a, b, c, d. split; [reflexivity |].
    cbn [forallb]. rewrite Ha, Hb, Hc, Hd. reflexivity.
  - reflexivity.
  - cbn. tauto.
Qed.

(** X4. Two devices get the same host name exactly when the fifth and
    sixth bytes of their MAC addresses agree. *)
Theorem host_name_identifies_mac_tail (config : NetworkConfig) (env1 env2 : Env)
    (w : World) :
  isWifiAvailable config = true ->
  ourHost (state_after (initWifi config env1) w)
  = ourHost (state_after (initWifi config env2) w)
  <-> to_uint8 (nth 4 (getMacAddr env1) 0) = to_uint8 (nth 4 (getMacAddr env2) 0)
      /\ to_uint8 (nth 5 (getMacAddr env1) 0) = to_uint8 (nth 5 (getMacAddr env2) 0).
Proof.
  intros Hav. unfold state_after.
  rewrite (initWifi_available config env1 w Hav), (initWifi_available config env2 w Hav).
  cbn [fst snd ourHost set_wifiReconnect set_ourHost]. unfold host_name.
  split.
  - intros H.
    destruct (hex02_digits (nth 4 (getMacAddr env1) 0)) as (a1 & b1 & E1 & _).
    destruct (hex02_digits (nth 5 (getMacAddr env1) 0)) as (c1 & d1 & E2 & _).
    destruct (hex02_digits (nth 4 (getMacAddr env2) 0)) as (a2 & b2 & E3 & _).
    destruct (hex02_digits (nth 5 (getMacAddr env2) 0)) as (c2 & d2 & E4 & _).
    rewrite E1, E2, E3, E4 in H. cbn in H.
    injection H as -> -> -> ->.
    split; apply hex02_injective; congruence.
  - intros [H4 H5]. unfold hex02. rewrite H4, H5. reflexivity.
Qed.

(** ** The handlers *)

Lemma set_link_same (w : World) : set_link (link w) w = w.
Proof. destruct w; reflexivity. Qed.

(** X5. An event that reports the network neither usable nor lost only
    logs: no file-scope variable changes, and nothing but the log is
    called. *)
Theorem other_events_only_log (event : WiFiEvent_t) (info : WiFiEventInfo_t)
    (env : Env) (w : World) :
  became_usable event = false ->
  link_lost event = false ->
  state_after (deliver event info env) w = w
  /\ forallb is_log (actions (deliver event info env) w) = true.
Proof.
  intros Husable Hlost. unfold deliver, WiFiEvent.
  destruct event; try discriminate Husable; try discriminate Hlost;
    unfold_monad; rewrite set_link_same; split; reflexivity.
Qed.

(** X6. The first run of [onNetworkConnected()] starts the NTP client, the
    web server and the API server and marks the startup complete whether or
    not [MDNS.begin] succeeds; the two mDNS services (http on 80, https on
    443) are advertised only when it succeeds, and the NTP client is set to
    update once an hour. *)
Theorem startup_survives_mdns_failure (env : Env) (w : World) :
  APStartupComplete w = false ->
  service_starts (actions (onNetworkConnected env) w) = (1, 1, 1, 1)%nat
  /\ APStartupComplete (state_after (onNetworkConnected env) w) = true
  /\ filter is_MDNS_addService (actions (onNetworkConnected env) w)
     = (if MDNS_begin_result env
        then [MDNS_addService "http" "tcp" 80; MDNS_addService "https" "tcp" 443]
        else [])
  /\ In (timeClient_setUpdateInterval 3600) (actions (onNetworkConnected env) w).
Proof.
  destruct w as [reason host complete need task l]; cbn [APStartupComplete].
  intros ->. unfold onNetworkConnected. unfold_monad.
  destruct (MDNS_begin_result env), (mqtt env); cbn; tauto.
Qed.


(** X7. A usable event changes the startup flag and nothing else in the
    file: the reconnect flag, the stored disconnect reason, the host name
    and the task are as before. *)
Theorem usable_event_frame (event : WiFiEvent_t) (info : WiFiEventInfo_t)
    (env : Env) (w : World) :
  became_usable event = true ->
  let w' := state_after (deliver event info env) w in
  needReconnect w' = needReconnect w
  /\ wifiDisconnectReason w' = wifiDisconnectReason w
  /\ ourHost w' = ourHost w
  /\ wifiReconnect w' = wifiReconnect w
  /\ APStartupComplete w' = true.
Proof.
  intros Hev w'. subst w'.
  destruct (deliver_usable event info env w Hev) as (logs & _ & Hrun).
  unfold state_after at 1 2 3 4 5. rewrite Hrun. cbn [fst snd].
  rewrite onNetworkConnected_frame. cbn. tauto.
Qed.

(** X8. Once the startup is complete no input undoes it or repeats it: in
    every run from such a state the flag stays set and none of the four
    services is started again, whatever disconnects and reconnects
    follow. *)
Theorem startup_never_repeats (config : NetworkConfig)
    (inputs : list (Env * Input)) (w : World) :
  APStartupComplete w = true ->
  APStartupComplete (state_after (run config inputs) w) = true
  /\ service_starts (actions (run config inputs) w) = (0, 0, 0, 0)%nat.
Proof.
  intros Hc. destruct (run_gate config inputs w) as [Hs Hf].
  rewrite Hc in Hs, Hf. rewrite andb_false_r in Hs. cbn in Hf.
  split; assumption.
Qed.

(** ** Runs of the process *)

Lemma count_inputs_cons (p : Env * Input -> bool) (i : Env * Input)
    (rest : list (Env * Input)) :
  count_inputs p (i :: rest) = (Nat.b2n (p i) + count_inputs p rest)%nat.
Proof. unfold count_inputs. cbn. destruct (p i); reflexivity. Qed.



Lemma step_connect_budget (config : NetworkConfig) (i : Env * Input) (w : World) :
  (count is_connect (actions (step config i) w)
   + Nat.b2n (needReconnect (state_after (step config i) w))
   <= Nat.b2n (needReconnect w) + Nat.b2n (input_link_lost i))%nat.
Proof.
  destruct i as [env [event info |]];
    unfold step, input_link_lost; cbn [fst snd].
  - rewrite deliver_no_connect.
    destruct (link_lost event) eqn:Hlost.
    + destruct (deliver_lost event info env w Hlost) as [-> _].
      destruct (needReconnect w); cbn; lia.
    + rewrite (deliver_keeps_flag event info env w Hlost).
      destruct (needReconnect w); cbn; lia.
  - rewrite actions_bind, state_after_bind, count_app.
    unfold actions, state_after, result.
    destruct (reconnectWiFi_cases config env w) as [Hup | [[Hl Hg] | (Hl & He & Hn & Hs)]].
    + rewrite (reconnectWiFi_up config env w Hup). cbn [fst snd ret].
      destruct (timeClient_update_result env), (needReconnect w); cbn; lia.
    + rewrite (reconnectWiFi_idle config env w Hl Hg). cbn.
      destruct (needReconnect w); cbn; lia.
    + rewrite (reconnectWiFi_connects config env w He Hn Hl Hs), Hn. cbn. lia.
Qed.

(** X9. Connect attempts are paid for by link losses: in any run the number
    of connect commands is at most the number of link-lost events, plus one
    if the reconnect flag was set at the start.  Ticks alone never connect
    twice. *)
Theorem connects_bounded_by_losses (config : NetworkConfig)
    (inputs : list (Env * Input)) (w : World) :
  (count is_connect (actions (run config inputs) w)
   <= Nat.b2n (needReconnect w) + count_inputs input_link_lost inputs)%nat.
Proof.
  enough (H : (count is_connect (actions (run config inputs) w)
               + Nat.b2n (needReconnect (state_after (run config inputs) w))
               <= Nat.b2n (needReconnect w)
                  + count_inputs input_link_lost inputs)%nat) by lia.
  revert w. induction inputs as [|i rest IH]; intros w; cbn [run].
  - cbn. lia.
  - rewrite actions_bind, state_after_bind, count_app, count_inputs_cons.
    pose proof (step_connect_budget config i w) as Hstep.
    pose proof (IH (state_after (step config i) w)) as Hrest.
    lia.
Qed.

Lemma step_keeps_reason (config : NetworkConfig) (i : Env * Input) (w : World) :
  is_disconnected_event i = false ->
  wifiDisconnectReason (state_after (step config i) w) = wifiDisconnectReason w.
Proof.
  destruct i as [env [event info |]]; unfold step, is_disconnected_event;
    cbn [fst snd]; intros Hev.
  - apply deliver_keeps_reason. intros ->. discriminate Hev.
  - rewrite state_after_bind. apply reconnectWiFi_keeps_reason.
Qed.

Lemma run_keeps_reason (config : NetworkConfig) (inputs : list (Env * Input)) :
  existsb is_disconnected_event inputs = false ->
  forall w,
    wifiDisconnectReason (state_after (run config inputs) w)
    = wifiDisconnectReason w.
Proof.
  induction inputs as [|i rest IH]; cbn [run existsb]; intros Hnone w.
  - reflexivity.
  - apply orb_false_iff in Hnone. destruct Hnone as [Hi Hrest].
    rewrite state_after_bind, (IH Hrest). apply step_keeps_reason, Hi.
Qed.

(** X10. [getWifiDisconnectReason()] returns the reason of the last
    station-disconnected event of the run, as a [uint8_t], whatever came
    before it and whatever other events and ticks came after. *)
Theorem reason_of_last_disconnect (config : NetworkConfig)
    (pre post : list (Env * Input)) (env : Env) (info : WiFiEventInfo_t)
    (w : World) :
  existsb is_disconnected_event post = false ->
  result getWifiDisconnectReason
    (state_after
       (run config (pre ++ (env, LinkEvent SYSTEM_EVENT_STA_DISCONNECTED info) :: post))
       w)
  = to_uint8 (wifi_sta_disconnected_reason info).
Proof.
  intros Hpost.
  destruct (run_app config pre
              ((env, LinkEvent SYSTEM_EVENT_STA_DISCONNECTED info) :: post) w)
    as [-> _].
  cbn [run]. rewrite state_after_bind.
  unfold getWifiDisconnectReason, result, read; cbn [fst].
  rewrite (run_keeps_reason config post Hpost).
  reflexivity.
Qed.

(** X11. In every state a process reaches the stored disconnect reason is
    a [uint8_t] value, and it is 0 as long as no station-disconnected event
    has arrived. *)
Theorem reason_stays_uint8 (config : NetworkConfig) (env0 : Env)
    (inputs : list (Env * Input)) :
  let w := state_after (run config inputs) (after_setup config env0) in
  0 <= result getWifiDisconnectReason w < 256
  /\ (existsb is_disconnected_event inputs = false ->
      result getWifiDisconnectReason w = 0).
Proof.
  assert (H0 : wifiDisconnectReason (after_setup config env0) = 0).
  { unfold after_setup.
    destruct (initWifi_keeps_flags config env0 process_start) as (_ & _ & _ & H).
    rewrite H. reflexivity. }
  cbn zeta. unfold getWifiDisconnectReason, result, read; cbn [fst]. split.
  - assert (Hstart : 0 <= wifiDisconnectReason (after_setup config env0) < 256)
      by (rewrite H0; lia).
    revert Hstart. generalize (after_setup config env0).
    induction inputs as [|i rest IH]; intros w Hw; cbn [run].
    + exact Hw.
    + rewrite state_after_bind. apply IH.
      destruct (is_disconnected_event i) eqn:Hi.
      * destruct i as [env [event info |]]; try discriminate Hi.
        destruct event; try discriminate Hi.
        unfold step; cbn [fst snd]. rewrite deliver_disconnected. cbn.
        apply to_uint8_range.
      * rewrite (step_keeps_reason config i w Hi). exact Hw.
  - intros Hnone. rewrite (run_keeps_reason config inputs Hnone). exact H0.
Qed.

Lemma Forall_of_count_zero (p : Action -> bool) (Q : Action -> Prop)
    (out : list Action) :
  (forall a, p a = false -> Q a) ->
  count p out = 0%nat -> Forall Q out.
Proof.
  intros Hq. unfold count. induction out as [|a out IH]; cbn; intros H.
  - constructor.
  - destruct (p a) eqn:Hp; [discriminate H |].
    constructor; [apply Hq, Hp | apply IH, H].
Qed.

Lemma not_connect_has_credentials (config : NetworkConfig) (a : Action) :
  is_connect a = false -> connect_with_credentials config a.
Proof. destruct a; cbn; intros H; try exact I. discriminate H. Qed.

Lemma not_disconnect_erases (a : Action) :
  is_disconnect_command a = false -> disconnect_erases_credentials a.
Proof. destruct a; cbn; intros H; try exact I. discriminate H. Qed.

Lemma not_submission_is_ntp (a : Action) :
  is_perhapsSetRTC a = false -> submission_is_ntp_seconds a.
Proof. destruct a; cbn; intros H; try exact I. discriminate H. Qed.

(** What an event handler never calls: the connect and disconnect commands
    and the time client. *)
Lemma deliver_calls_no_command (event : WiFiEvent_t) (info : WiFiEventInfo_t)
    (env : Env) (w : World) :
  count is_disconnect_command (actions (deliver event info env) w) = 0%nat
  /\ count is_timeClient_update (actions (deliver event info env) w) = 0%nat
  /\ count is_perhapsSetRTC (actions (deliver event info env) w) = 0%nat.
Proof.
  destruct w as [reason host complete need task l].
  unfold deliver, WiFiEvent, onNetworkConnected, onStaDisconnected.
  destruct event; unfold_monad; try (repeat split; reflexivity);
    destruct complete, (MDNS_begin_result env), (mqtt env);
    repeat split; reflexivity.
Qed.

Lemma initWifi_no_disconnect (config : NetworkConfig) (env : Env) (w : World) :
  count is_disconnect_command (actions (initWifi config env) w) = 0%nat.
Proof.
  unfold actions. destruct (isWifiAvailable config) eqn:Hav.
  - rewrite (initWifi_available config env w Hav). cbn [snd].
    destruct (uses_static_address config); reflexivity.
  - rewrite (initWifi_unavailable config env w Hav). reflexivity.
Qed.

Lemma reconnectWiFi_link_commands (config : NetworkConfig) (env : Env) (w : World) :
  let out := actions (reconnectWiFi config env) w in
  Forall (connect_with_credentials config) out
  /\ Forall disconnect_erases_credentials out
  /\ count is_disconnect_command out = count is_connect out.
Proof.
  cbn zeta. unfold actions.
  destruct (reconnectWiFi_cases config env w) as [Hup | [[Hl Hg] | (Hl & He & Hn & Hs)]].
  - rewrite (reconnectWiFi_up config env w Hup). cbn [snd].
    destruct (timeClient_update_result env); repeat split;
      repeat constructor.
  - rewrite (reconnectWiFi_idle config env w Hl Hg). repeat split; constructor.
  - rewrite (reconnectWiFi_connects config env w He Hn Hl Hs).
    rewrite stored_secret_pointer. cbn [snd].
    repeat split; repeat constructor.
Qed.

Lemma step_link_commands (config : NetworkConfig) (i : Env * Input) (w : World) :
  let out := actions (step config i) w in
  Forall (connect_with_credentials config) out
  /\ Forall disconnect_erases_credentials out
  /\ count is_disconnect_command out = count is_connect out.
Proof.
  cbn zeta. destruct i as [env [event info |]]; unfold step; cbn [fst snd].
  - destruct (deliver_calls_no_command event info env w) as (Hd & _ & _).
    pose proof (deliver_no_connect event info env w) as Hc.
    split; [| split].
    + exact (Forall_of_count_zero _ _ _ (not_connect_has_credentials config) Hc).
    + exact (Forall_of_count_zero _ _ _ not_disconnect_erases Hd).
    + rewrite Hd, Hc. reflexivity.
  - rewrite actions_bind.
    change (actions (ret tt) (state_after (reconnectWiFi config env) w))
      with (@nil Action).
    rewrite app_nil_r. apply reconnectWiFi_link_commands.
Qed.

Lemma run_link_commands (config : NetworkConfig) (inputs : list (Env * Input)) :
  forall w,
    let out := actions (run config inputs) w in
    Forall (connect_with_credentials config) out
    /\ Forall disconnect_erases_credentials out
    /\ count is_disconnect_command out = count is_connect out.
Proof.
  cbn zeta. induction inputs as [|i rest IH]; intros w; cbn [run].
  - repeat split; constructor.
  - rewrite actions_bind, !count_app.
    destruct (step_link_commands config i w) as (Hc & Hd & Hn).
    destruct (IH (state_after (step config i) w)) as (Hc' & Hd' & Hn').
    split; [| split].
    + apply Forall_app; split; assumption.
    + apply Forall_app; split; assumption.
    + rewrite Hn, Hn'. reflexivity.
Qed.

(** X12. Over the setup and any run of events and ticks, every connect
    command carries the configured network name and the stored secret (null
    when the secret is empty), every disconnect command keeps the radio on
    and erases the stored access point, and there are as many of the one as
    of the other. *)
Theorem link_commands_come_in_pairs (config : NetworkConfig) (env0 : Env)
    (inputs : list (Env * Input)) (w : World) :
  let out := actions (_ <- initWifi config env0 ;; run config inputs) w in
  Forall (connect_with_credentials config) out
  /\ Forall disconnect_erases_credentials out
  /\ count is_disconnect_command out = count is_connect out.
Proof.
  cbn zeta. rewrite actions_bind, !count_app.
  pose proof (initWifi_no_connect config env0 w) as Hc.
  pose proof (initWifi_no_disconnect config env0 w) as Hd.
  destruct (run_link_commands config inputs (state_after (initWifi config env0) w))
    as (Hc' & Hd' & Hn').
  split; [| split].
  - apply Forall_app; split; [| exact Hc'].
    exact (Forall_of_count_zero _ _ _ (not_connect_has_credentials config) Hc).
  - apply Forall_app; split; [| exact Hd'].
    exact (Forall_of_count_zero _ _ _ not_disconnect_erases Hd).
  - rewrite Hc, Hd, Hn'. reflexivity.
Qed.

(** X13. After a link-lost event, with the network enabled and named, the
    next tick issues one connect command, clears the flag and leaves the
    link connecting; a tick that follows with no event in between does
    nothing at all. *)
Theorem link_loss_then_ticks (config : NetworkConfig) (event : WiFiEvent_t)
    (info : WiFiEventInfo_t) (env1 env2 env3 : Env) (w : World) :
  isWifiAvailable config = true ->
  link_lost event = true ->
  let w1 := state_after (deliver event info env1) w in
  let w2 := state_after (reconnectWiFi config env2) w1 in
  count is_connect (actions (reconnectWiFi config env2) w1) = 1%nat
  /\ needReconnect w2 = false
  /\ link w2 = Connecting
  /\ reconnectWiFi config env3 w2 = (43200 * 1000, w2, []).
Proof.
  intros Hav Hlost w1 w2.
  destruct (deliver_lost event info env1 w Hlost) as [Hneed Hdown].
  fold w1 in Hneed, Hdown.
  unfold isWifiAvailable in Hav.
  destruct (wifi_enabled config) eqn:Hen; [| discriminate Hav].
  destruct (CStr.nonzero (CStr.deref (wifi_ssid config))) eqn:Hname;
    [| discriminate Hav].
  assert (Hl : link w1 <> Up) by congruence.
  pose proof (reconnectWiFi_connects config env2 w1 Hen Hneed Hl Hname) as Hrun.
  assert (Hw2 : w2 = set_link (link_on_connect (link w1)) (set_needReconnect false w1))
    by (subst w2; unfold state_after; rewrite Hrun; reflexivity).
  assert (Hlink2 : link w2 = Connecting) by (rewrite Hw2, Hdown; reflexivity).
  assert (Hneed2 : needReconnect w2 = false) by (rewrite Hw2; reflexivity).
  split; [| split; [| split]].
  - unfold actions. rewrite Hrun. reflexivity.
  - exact Hneed2.
  - exact Hlink2.
  - apply reconnectWiFi_idle; [congruence |].
    rewrite Hneed2, andb_false_r. reflexivity.
Qed.

Lemma reconnectWiFi_time_calls (config : NetworkConfig) (env : Env) (w : World) :
  let out := actions (reconnectWiFi config env) w in
  Forall submission_is_ntp_seconds out
  /\ (count is_perhapsSetRTC out <= count is_timeClient_update out)%nat
  /\ (count is_timeClient_update out <= 1)%nat.
Proof.
  cbn zeta. unfold actions.
  destruct (reconnectWiFi_cases config env w) as [Hup | [[Hl Hg] | (Hl & He & Hn & Hs)]].
  - rewrite (reconnectWiFi_up config env w Hup). cbn [snd].
    destruct (timeClient_update_result env); cbn; repeat split;
      repeat constructor.
  - rewrite (reconnectWiFi_idle config env w Hl Hg). cbn.
    repeat split; repeat constructor.
  - rewrite (reconnectWiFi_connects config env w He Hn Hl Hs). cbn.
    repeat split; repeat constructor.
Qed.

(** X14. In any run, every time submitted to the clock arbiter is tagged
    [RTCQualityNTP] and has zero microseconds; no time is submitted without
    a request to the NTP client, and the client is asked at most once per
    tick and never from an event handler. *)
Theorem time_submissions_in_a_run (config : NetworkConfig)
    (inputs : list (Env * Input)) (w : World) :
  let out := actions (run config inputs) w in
  Forall submission_is_ntp_seconds out
  /\ (count is_perhapsSetRTC out <= count is_timeClient_update out)%nat
  /\ (count is_timeClient_update out <= count_inputs is_tick inputs)%nat.
Proof.
  cbn zeta. revert w. induction inputs as [|i rest IH]; intros w; cbn [run].
  - cbn. repeat split; constructor.
  - rewrite actions_bind, !count_app, count_inputs_cons.
    destruct (IH (state_after (step config i) w)) as (Hf & Hs & Hu).
    assert (Hstep :
              Forall submission_is_ntp_seconds (actions (step config i) w)
              /\ (count is_perhapsSetRTC (actions (step config i) w)
                  <= count is_timeClient_update (actions (step config i) w))%nat
              /\ (count is_timeClient_update (actions (step config i) w)
                  <= Nat.b2n (is_tick i))%nat).
    { destruct i as [env [event info |]]; unfold step, is_tick; cbn [fst snd].
      - destruct (deliver_calls_no_command event info env w) as (_ & Hu' & Hs').
        rewrite Hu', Hs'. split; [| split; cbn; lia].
        exact (Forall_of_count_zero _ _ _ not_submission_is_ntp Hs').
      - rewrite actions_bind.
        change (actions (ret tt) (state_after (reconnectWiFi config env) w))
          with (@nil Action).
        rewrite app_nil_r. apply reconnectWiFi_time_calls. }
    destruct Hstep as (Hf' & Hs' & Hu').
    split; [| split].
    + apply Forall_app; split; assumption.
    + lia.
    + lia.
Qed.

(** X15. [deinitWifi()] switches the radio off when the network is enabled
    and named, and only logs otherwise; it leaves the reconnect flag and the
    task as they are, so a tick that follows with the flag set and the link
    not up switches to station mode and connects again. *)
Theorem deinitWifi_then_tick (config : NetworkConfig) (env : Env) (w : World) :
  state_after (deinitWifi config) w = w
  /\ count is_radio_off (actions (deinitWifi config) w)
     = Nat.b2n (isWifiAvailable config)
  /\ (isWifiAvailable config = true ->
      needReconnect w = true ->
      link w <> Up ->
      actions (_ <- deinitWifi config ;; reconnectWiFi config env) w
      = [DEBUG_MSG "WiFi deinit"; WiFi_mode WIFI_MODE_NULL;
         DEBUG_MSG "WiFi Turned Off";
         WiFi_disconnect false true;
         DEBUG_MSG "... Reconnecting to WiFi access point";
         WiFi_mode WIFI_MODE_STA;
         WiFi_begin (CStr.to_string (wifi_ssid config)) (stored_secret config)]).
Proof.
  assert (Hstate : state_after (deinitWifi config) w = w).
  { unfold deinitWifi. unfold_monad.
    destruct (isWifiAvailable config); reflexivity. }
  split; [exact Hstate | split].
  - unfold deinitWifi. unfold_monad.
    destruct (isWifiAvailable config); reflexivity.
  - intros Hav Hneed Hl. rewrite actions_bind, Hstate.
    unfold isWifiAvailable in Hav.
    destruct (wifi_enabled config) eqn:Hen; [| discriminate Hav].
    destruct (CStr.nonzero (CStr.deref (wifi_ssid config))) eqn:Hname;
      [| discriminate Hav].
    unfold actions at 2.
    rewrite (reconnectWiFi_connects config env w Hen Hneed Hl Hname).
    rewrite stored_secret_pointer.
    unfold deinitWifi, isWifiAvailable. rewrite Hen, Hname. reflexivity.
Qed.

(** X16. The reconnect task runs once at the beginning: with the network
    enabled and named, the first tick after the setup connects with the
    configured name and the stored secret, before any event has arrived. *)
Theorem first_tick_connects (config : NetworkConfig) (env0 env : Env) :
  isWifiAvailable config = true ->
  actions (reconnectWiFi config env) (after_setup config env0)
  = [WiFi_disconnect false true;
     DEBUG_MSG "... Reconnecting to WiFi access point";
     WiFi_mode WIFI_MODE_STA;
     WiFi_begin (CStr.to_string (wifi_ssid config)) (stored_secret config)].
Proof.
  intros Hav.
  destruct (initWifi_keeps_flags config env0 process_start) as (_ & Hneed & Hlink & _).
  fold (after_setup config env0) in Hneed, Hlink. cbn in Hneed, Hlink.
  unfold isWifiAvailable in Hav.
  destruct (wifi_enabled config) eqn:Hen; [| discriminate Hav].
  destruct (CStr.nonzero (CStr.deref (wifi_ssid config))) eqn:Hname;
    [| discriminate Hav].
  assert (Hl : link (after_setup config env0) <> Up) by congruence.
  unfold actions.
  rewrite (reconnectWiFi_connects config env _ Hen Hneed Hl Hname).
  rewrite stored_secret_pointer. reflexivity.
Qed.

(** ** The further properties at the scenarios *)

Lemma initWifi_follows_availability_at_scenario :
  state_after (initWifi Scenario.wifi_off Scenario.env) process_start = process_start
  /\ actions (initWifi Scenario.wifi_off Scenario.env) process_start
     = [DEBUG_MSG "Not using WIFI"].
Proof.
  apply (proj1 (proj2 (initWifi_follows_availability Scenario.wifi_off
                         Scenario.env process_start))).
  reflexivity.
Defined.

Lemma initWifi_static_address_at_scenario :
  isWifiAvailable Scenario.static_network = true
  /\ filter is_WiFi_config
       (actions (initWifi Scenario.static_network Scenario.env) process_start)
     = [WiFi_config 3232235786 3232235777 4294967040 134744072 134744072].
Proof.
  split; [reflexivity |].
  apply (proj1 (initWifi_static_address Scenario.static_network Scenario.env
                  process_start eq_refl));
    [reflexivity | discriminate].
Defined.

Lemma initWifi_host_name_at_scenario :
  isWifiAvailable Scenario.open_network = true
  /\ (String.length
        (ourHost (state_after (initWifi Scenario.open_network Scenario.env)
                    process_start)) + 1 = 16)%nat.
Proof.
  split; [reflexivity |].
  exact (proj1 (proj2 (initWifi_host_name Scenario.open_network Scenario.env
                         process_start eq_refl))).
Defined.

Lemma host_name_identifies_mac_tail_at_scenario :
  isWifiAvailable Scenario.open_network = true
  /\ ourHost (state_after (initWifi Scenario.open_network Scenario.env) process_start)
     <> ourHost (state_after (initWifi Scenario.open_network Scenario.env_other_device)
                   process_start).
Proof.
  split; [reflexivity |].
  intros H.
  apply (proj1 (host_name_identifies_mac_tail Scenario.open_network Scenario.env
                  Scenario.env_other_device process_start eq_refl)) in H.
  destruct H as [_ H]. discriminate H.
Defined.

Lemma other_events_only_log_at_scenario :
  became_usable SYSTEM_EVENT_AP_STOP = false
  /\ link_lost SYSTEM_EVENT_AP_STOP = false
  /\ state_after (deliver SYSTEM_EVENT_AP_STOP (Scenario.reason 3) Scenario.env)
       Scenario.world_up
     = Scenario.world_up.
Proof.
  split; [reflexivity | split; [reflexivity |]].
  exact (proj1 (other_events_only_log SYSTEM_EVENT_AP_STOP (Scenario.reason 3)
                  Scenario.env Scenario.world_up eq_refl eq_refl)).
Defined.

Lemma startup_survives_mdns_failure_at_scenario :
  APStartupComplete process_start = false
  /\ service_starts (actions (onNetworkConnected Scenario.env_mdns_down) process_start)
     = (1, 1, 1, 1)%nat.
Proof.
  split; [reflexivity |].
  exact (proj1 (startup_survives_mdns_failure Scenario.env_mdns_down
                  process_start eq_refl)).
Defined.

Lemma usable_event_frame_at_scenario :
  became_usable SYSTEM_EVENT_STA_GOT_IP = true
  /\ needReconnect
       (state_after (deliver SYSTEM_EVENT_STA_GOT_IP (Scenario.reason 0) Scenario.env)
          process_start)
     = needReconnect process_start.
Proof.
  split; [reflexivity |].
  exact (proj1 (usable_event_frame SYSTEM_EVENT_STA_GOT_IP (Scenario.reason 0)
                  Scenario.env process_start eq_refl)).
Defined.

Lemma startup_never_repeats_at_scenario :
  APStartupComplete Scenario.world_up = true
  /\ service_starts
       (actions
          (run Scenario.open_network
             [Scenario.disconnected 8; Scenario.tick; Scenario.got_ip;
              Scenario.ap_start])
          Scenario.world_up)
     = (0, 0, 0, 0)%nat.
Proof.
  split; [reflexivity |].
  exact (proj2 (startup_never_repeats Scenario.open_network
                  [Scenario.disconnected 8; Scenario.tick; Scenario.got_ip;
                   Scenario.ap_start]
                  Scenario.world_up eq_refl)).
Defined.

Lemma reason_of_last_disconnect_at_scenario :
  existsb is_disconnected_event [Scenario.lost_ip 3; Scenario.tick; Scenario.got_ip]
  = false
  /\ result getWifiDisconnectReason
       (state_after
          (run Scenario.open_network
             ([Scenario.tick; Scenario.disconnected 2] ++
              (Scenario.env,
               LinkEvent SYSTEM_EVENT_STA_DISCONNECTED (Scenario.reason 201))
              :: [Scenario.lost_ip 3; Scenario.tick; Scenario.got_ip]))
          process_start)
     = 201.
Proof.
  split; [reflexivity |].
  exact (reason_of_last_disconnect Scenario.open_network
           [Scenario.tick; Scenario.disconnected 2]
           [Scenario.lost_ip 3; Scenario.tick; Scenario.got_ip]
           Scenario.env (Scenario.reason 201) process_start eq_refl).
Defined.

Lemma reason_stays_uint8_at_scenario :
  existsb is_disconnected_event [Scenario.tick; Scenario.got_ip; Scenario.lost_ip 3]
  = false
  /\ result getWifiDisconnectReason
       (state_after
          (run Scenario.open_network
             [Scenario.tick; Scenario.got_ip; Scenario.lost_ip 3])
          (after_setup Scenario.open_network Scenario.env))
     = 0.
Proof.
  split; [reflexivity |].
  apply (proj2 (reason_stays_uint8 Scenario.open_network Scenario.env
                  [Scenario.tick; Scenario.got_ip; Scenario.lost_ip 3])).
  reflexivity.
Defined.

Lemma link_loss_then_ticks_at_scenario :
  isWifiAvailable Scenario.protected_network = true
  /\ link_lost SYSTEM_EVENT_STA_LOST_IP = true
  /\ count is_connect
       (actions (reconnectWiFi Scenario.protected_network Scenario.env)
          (state_after
             (deliver SYSTEM_EVENT_STA_LOST_IP (Scenario.reason 0) Scenario.env)
             Scenario.world_up))
     = 1%nat.
Proof.
  split; [reflexivity | split; [reflexivity |]].
  exact (proj1 (link_loss_then_ticks Scenario.protected_network
                  SYSTEM_EVENT_STA_LOST_IP (Scenario.reason 0)
                  Scenario.env Scenario.env Scenario.env Scenario.world_up
                  eq_refl eq_refl)).
Defined.

Lemma deinitWifi_then_tick_at_scenario :
  actions (_ <- deinitWifi Scenario.protected_network ;;
           reconnectWiFi Scenario.protected_network Scenario.env) process_start
  = [DEBUG_MSG "WiFi deinit"; WiFi_mode WIFI_MODE_NULL;
     DEBUG_MSG "WiFi Turned Off";
     WiFi_disconnect false true;
     DEBUG_MSG "... Reconnecting to WiFi access point";
     WiFi_mode WIFI_MODE_STA;
     WiFi_begin "MyNet" (Some "hunter22")].
Proof.
  apply (proj2 (proj2 (deinitWifi_then_tick Scenario.protected_network
                         Scenario.env process_start)));
    [reflexivity | reflexivity | discriminate].
Defined.

Lemma first_tick_connects_at_scenario :
  isWifiAvailable Scenario.open_network = true
  /\ actions (reconnectWiFi Scenario.open_network Scenario.env)
       (after_setup Scenario.open_network Scenario.env)
     = [WiFi_disconnect false true;
        DEBUG_MSG "... Reconnecting to WiFi access point";
        WiFi_mode WIFI_MODE_STA;
        WiFi_begin "MyNet" None].
Proof.
  split; [reflexivity |].
  exact (first_tick_connects Scenario.open_network Scenario.env Scenario.env eq_refl).
Defined.
